(** * Postal-code weather pipeline: gateway (service A) and orchestrator (service B)

    A shallow embedding of the two HTTP handlers, the two outbound adapters
    and the shared postal-code validator, together with the properties the
    specification states about them.

    Conventions.
    - A Go [string] is a sequence of bytes: [string] (a list of [ascii]).
    - A Go [(T, error)] return is a [result T]; the only thing the program
      ever observes of an [error] is its text, [Error].
    - [float64] is the kernel's binary64 [float]; every operation rounds
      once, as on amd64 (no fused multiply-add).
    - The network, the process environment, the lexical layer of
      encoding/json, the printing of a URL in a client's error and the
      name of a client span are inputs ([World], [Lib]); what the program
      does with their answers is modelled. *)

From Stdlib Require Import String Ascii List Arith Bool Lia PrimFloat.
From stdpp Require Import base option list gmap strings.
Import ListNotations.
#[local] Set Warnings "-register-all,-inexact-float".

(** ** Errors and results *)

(** Go's [error] interface: one method, [Error() string]. *)
Record error : Type := mkError { Error : string }.

Inductive result (A : Type) : Type :=
| Ok (a : A)
| Err (e : error).
Arguments Ok {A} a.
Arguments Err {A} e.

(** [fmt.Errorf] with a constant format. *)
Definition Errorf (text : string) : error := mkError text.

(** [fmt.Errorf("<prefix>%w", err)]: the text is the prefix followed by the
    wrapped error's text. *)
Definition Errorf_w (prefix : string) (err : error) : error :=
  mkError (prefix +:+ Error err).

(** The double quote character, for texts that contain one. *)
Definition dquote : string := String (ascii_of_nat 34) EmptyString.

(** The line terminator [fmt.Fprintln] and [Encoder.Encode] append. *)
Definition newline : string := String (ascii_of_nat 10) EmptyString.

(** ** Package regexp, as far as the validator's pattern needs it *)

Module Regexp.

Inductive regex : Type :=
| Empty
| BeginText
| EndText
| CharRange (lo hi : ascii)
| Concat (r1 r2 : regex)
| Repeat (r : regex) (n : nat).

(** A position in the text: whether it is the beginning of the text, and
    what is left to read. *)
Definition position : Type := bool * string.

Definition inRange (lo hi c : ascii) : bool :=
  Nat.leb (nat_of_ascii lo) (nat_of_ascii c) && Nat.leb (nat_of_ascii c) (nat_of_ascii hi).

(** All the positions at which a match of [r] that starts at [p] can end.
    [$] without the multi-line flag matches at the end of the text only.
    The text is matched byte by byte: a byte of a multi-byte UTF-8 sequence
    is above 127 and so lies in no ASCII range. *)
Fixpoint step (r : regex) (p : position) : list position :=
  match r with
  | Empty => [p]
  | BeginText => if fst p then [p] else []
  | EndText => match snd p with EmptyString => [p] | String _ _ => [] end
  | CharRange lo hi =>
      match snd p with
      | String c rest => if inRange lo hi c then [(false, rest)] else []
      | EmptyString => []
      end
  | Concat r1 r2 => flat_map (step r2) (step r1 p)
  | Repeat r' n => Nat.iter n (flat_map (step r')) [p]
  end.

(** An unanchored search: a match may start at any position of the text. *)
Fixpoint search (r : regex) (atStart : bool) (s : string) : bool :=
  match step r (atStart, s) with
  | _ :: _ => true
  | [] =>
      match s with
      | EmptyString => false
      | String _ s' => search r false s'
      end
  end.

Definition isDigit (c : ascii) : bool := inRange "0" "9" c.

Definition digitValue (c : ascii) : nat := nat_of_ascii c - 48.

(** The decimal count of a [{n}] quantifier, up to the closing brace. *)
Fixpoint readCount (s : string) (acc : option nat) : option (nat * string) :=
  match s with
  | EmptyString => None
  | String c rest =>
      if Ascii.eqb c "}" then
        match acc with Some n => Some (n, rest) | None => None end
      else if isDigit c then
        readCount rest (Some (10 * default 0 acc + digitValue c))
      else None
  end.

Definition isMeta (c : ascii) : bool :=
  existsb (Ascii.eqb c)
    ["\"; "."; "+"; "*"; "?"; "("; ")"; "|"; "["; "]"; "{"; "}"; "^"; "$"]%char.

(** One atom of the pattern: an anchor, a class [[lo-hi]] or a literal. *)
Definition parseAtom (s : string) : option (regex * string) :=
  match s with
  | EmptyString => None
  | String c rest =>
      if Ascii.eqb c "^" then Some (BeginText, rest)
      else if Ascii.eqb c "$" then Some (EndText, rest)
      else if Ascii.eqb c "[" then
        match rest with
        | String lo (String dash (String hi (String close rest'))) =>
            if Ascii.eqb dash "-" && Ascii.eqb close "]" && negb (isMeta lo) && negb (isMeta hi)
            then Some (CharRange lo hi, rest')
            else None
        | _ => None
        end
      else if isMeta c then None
      else Some (CharRange c c, rest)
  end.

Definition parseQuantifier (atom : regex) (s : string) : option (regex * string) :=
  match s with
  | String c rest =>
      if Ascii.eqb c "{" then
        match readCount rest None with
        | Some (n, rest') => Some (Repeat atom n, rest')
        | None => None
        end
      else Some (atom, s)
  | EmptyString => Some (atom, s)
  end.

Fixpoint parseSeq (fuel : nat) (s : string) : option regex :=
  match fuel with
  | 0 => None
  | S fuel' =>
      match s with
      | EmptyString => Some Empty
      | String _ _ =>
          match parseAtom s with
          | None => None
          | Some (atom, rest) =>
              match parseQuantifier atom rest with
              | None => None
              | Some (item, rest') =>
                  match parseSeq fuel' rest' with
                  | Some r => Some (Concat item r)
                  | None => None
                  end
              end
          end
      end
  end.

(** [regexp.Compile] for the fragment above; every atom consumes at least
    one byte of the pattern, so its length (plus one) is fuel enough. *)
Definition Compile (pattern : string) : result regex :=
  match parseSeq (S (String.length pattern)) pattern with
  | Some r => Ok r
  | None => Err (Errorf ("error parsing regexp: " +:+ pattern))
  end.

(** [regexp.MatchString(pattern, s)]: [(matched, err)]. *)
Definition MatchString (pattern s : string) : bool * option error :=
  match Compile pattern with
  | Ok re => (search re true s, None)
  | Err e => (false, Some e)
  end.

End Regexp.

(** ** Spans and contexts (the OpenTelemetry tracer, as the program uses it) *)

Module Trace.

(** A [context.Context], reduced to the span it carries. *)
Record Context : Type := mkContext { currentSpan : nat }.

Inductive event : Type :=
| SpanStart (id : nat) (name : string) (parent : nat)
| SpanEnd (id : nat)
| SpanAttribute (id : nat) (key value : string).

(** The tracer hands out span identifiers in sequence and records what
    happens to each span. *)
Record Tracer : Type := mkTracer { nextSpan : nat; events : list event }.

Definition record (e : event) (t : Tracer) : Tracer :=
  mkTracer (nextSpan t) (events t ++ [e]).

(** [tr.Start(ctx, name)]: a new span, child of the span of [ctx], and the
    context that carries it. *)
Definition Start (ctx : Context) (name : string) (t : Tracer) : (Context * nat) * Tracer :=
  let id := nextSpan t in
  ((mkContext id, id), mkTracer (S id) (events t ++ [SpanStart id name (currentSpan ctx)])).

(** [span.End()] on a span that has not ended: its end is recorded. *)
Definition Finish (id : nat) (t : Tracer) : Tracer := record (SpanEnd id) t.

(** A span as the code that holds it sees it: its identifier, and whether
    it has ended. [span.End()] on a span that has ended does nothing. *)
Record Span : Type := mkSpan { spanId : nat; ended : bool }.

Definition End (s : Span) (t : Tracer) : Span * Tracer :=
  if ended s then (s, t) else (mkSpan (spanId s) true, Finish (spanId s) t).

(** [span.SetAttributes(attribute.String(key, value))]. *)
Definition SetAttributes (id : nat) (key value : string) (t : Tracer) : Tracer :=
  record (SpanAttribute id key value) t.

Definition isStart (id : nat) (e : event) : bool :=
  match e with SpanStart id' _ _ => Nat.eqb id id' | _ => false end.

Definition isEnd (id : nat) (e : event) : bool :=
  match e with SpanEnd id' => Nat.eqb id id' | _ => false end.

Definition started (evs : list event) : list nat :=
  flat_map (fun e => match e with SpanStart id _ _ => [id] | _ => [] end) evs.

(** Every span started in [evs] is started once and ended exactly once. *)
Definition closedOnce (evs : list event) : bool :=
  forallb (fun id =>
      Nat.eqb (List.length (List.filter (isStart id) evs)) 1
      && Nat.eqb (List.length (List.filter (isEnd id) evs)) 1)
    (started evs).

End Trace.

(** ** Package encoding/json *)

Module Json.

(** A syntactically well-formed JSON text, after scanning. A number keeps
    its literal; object members keep their order and their duplicates. *)
Inductive value : Type :=
| Null
| Bool (b : bool)
| Number (literal : string)
| Str (s : string)
| Array (items : list value)
| Object (members : list (string * value)).

(** How an [UnmarshalTypeError] names the offending JSON value. *)
Definition kind (v : value) : string :=
  match v with
  | Null => "null"
  | Bool _ => "bool"
  | Number _ => "number"
  | Str _ => "string"
  | Array _ => "array"
  | Object _ => "object"
  end.

Definition foldByte (c : ascii) : ascii :=
  if Regexp.inRange "a" "z" c then ascii_of_nat (nat_of_ascii c - 32) else c.

(** Case folding of a member name. The field names of this program are
    ASCII without [k] or [s], the only letters a non-ASCII rune folds to,
    so folding the ASCII letters byte by byte decides every match. *)
Fixpoint foldName (s : string) : string :=
  match s with
  | EmptyString => EmptyString
  | String c rest => String (foldByte c) (foldName rest)
  end.

(** The struct field a member name selects: the field of that exact name,
    else the first one equal to it under case folding. *)
Definition findField (names : list string) (key : string) : option string :=
  match List.find (String.eqb key) names with
  | Some f => Some f
  | None => List.find (fun f => String.eqb (foldName f) (foldName key)) names
  end.

(** A syntax error, by its text: the input ends early, or a byte is out
    of place ([what] names the byte and the place). *)
Inductive SyntaxError : Type :=
| UnexpectedEnd
| InvalidCharacter (what : string).

Definition syntaxErrorText (e : SyntaxError) : string :=
  match e with
  | UnexpectedEnd => "unexpected end of JSON input"
  | InvalidCharacter what => "invalid character " +:+ what
  end.

(** What the package does below the level of values: reading the next
    value off a stream ([scan], which fails with a syntax error or with
    the stream's error), checking and scanning a whole text ([parse]),
    converting number literals, wording the rest of its type errors
    after their fixed opening, and printing floats and strings. *)
Record Codec : Type := mkCodec {
  scan : string -> result value;
  parse : string -> SyntaxError + value;
  parseFloat : string -> option float;
  typeErrorText : string -> string -> string -> string;
  formatFloat : float -> string;
  quoteString : string -> string
}.

Section Decoding.
Variable codec : Codec.

(** The decoder keeps the first type error and goes on decoding. *)
Definition saveError (e : error) (saved : option error) : option error :=
  match saved with
  | Some _ => saved
  | None => Some e
  end.

Definition typeError (what field gotype : string) : error :=
  mkError ("json: cannot unmarshal " +:+ typeErrorText codec what field gotype).

(** Storing a value into a [string] field: a string is stored, [null]
    leaves the field alone, anything else is a type error. *)
Definition storeString (field : string) (v : value) (old : string) (saved : option error)
  : string * option error :=
  match v with
  | Str s => (s, saved)
  | Null => (old, saved)
  | _ => (old, saveError (typeError (kind v) field "string") saved)
  end.

(** Storing into a [float64] field. *)
Definition storeFloat64 (field : string) (v : value) (old : float) (saved : option error)
  : float * option error :=
  match v with
  | Number lit =>
      match parseFloat codec lit with
      | Some f => (f, saved)
      | None => (old, saveError (typeError ("number " +:+ lit) field "float64") saved)
      end
  | Null => (old, saved)
  | _ => (old, saveError (typeError (kind v) field "float64") saved)
  end.

(** Storing into a struct: the members of an object are visited in order,
    each one stored into the field its name selects, members that select
    no field skipped. *)
Definition storeStruct {S : Type} (names : list string)
    (setField : string -> value -> S -> option error -> S * option error)
    (gotype field : string) (v : value) (old : S) (saved : option error)
  : S * option error :=
  match v with
  | Object members =>
      fold_left
        (fun acc member =>
           match findField names (fst member) with
           | Some f => setField f (snd member) (fst acc) (snd acc)
           | None => acc
           end)
        members (old, saved)
  | Null => (old, saved)
  | _ => (old, saveError (typeError (kind v) field gotype) saved)
  end.

(** The verdict once the whole value has been visited. *)
Definition verdict {S : Type} (r : S * option error) : result S :=
  match snd r with
  | Some e => Err e
  | None => Ok (fst r)
  end.

(** [json.Unmarshal(data, &s)]: the whole text is one value. *)
Definition Unmarshal {S : Type} (store : value -> S -> option error -> S * option error)
    (data : string) (zero : S) : result S :=
  match parse codec data with
  | inl e => Err (mkError (syntaxErrorText e))
  | inr v => verdict (store v zero None)
  end.

(** [json.NewDecoder(body).Decode(&s)]: the next value of the stream. *)
Definition Decode {S : Type} (store : value -> S -> option error -> S * option error)
    (body : string) (zero : S) : result S :=
  match scan codec body with
  | Err e => Err e
  | Ok v => verdict (store v zero None)
  end.

Definition nonFiniteText (f : float) : string :=
  if is_nan f then "NaN" else if PrimFloat.ltb f 0%float then "-Inf" else "+Inf".

(** A float field of a value being marshalled: NaN and the infinities
    have no JSON form. *)
Definition marshalFloat64 (f : float) : result string :=
  if is_nan f || is_infinity f
  then Err (mkError ("json: unsupported value: " +:+ nonFiniteText f))
  else Ok (formatFloat codec f).

End Decoding.

End Json.

(** ** Package net/http: headers, the server's response writer, the client *)

Module Http.

Abbreviation Header := (gmap string (list string)).

Definition isLower (c : ascii) : bool := Regexp.inRange "a" "z" c.
Definition isUpper (c : ascii) : bool := Regexp.inRange "A" "Z" c.

(** The bytes of an HTTP token. *)
Definition validHeaderFieldByte (c : ascii) : bool :=
  isLower c || isUpper c || Regexp.isDigit c
  || existsb (Ascii.eqb c)
       ["!"; "#"; "$"; "%"; "&"; "'"; "*"; "+"; "-"; "."; "^"; "_"; "`"; "|"; "~"]%char.

Definition recaseByte (upper : bool) (c : ascii) : ascii :=
  if upper && isLower c then ascii_of_nat (nat_of_ascii c - 32)
  else if negb upper && isUpper c then ascii_of_nat (nat_of_ascii c + 32)
  else c.

Fixpoint recase (upper : bool) (s : string) : string :=
  match s with
  | EmptyString => EmptyString
  | String c rest =>
      let c' := recaseByte upper c in
      String c' (recase (Ascii.eqb c' "-") rest)
  end.

(** [textproto.CanonicalMIMEHeaderKey]: a key made of token bytes gets an
    upper-case letter first and after each dash and lower-case letters
    elsewhere; any other key is returned as it is. *)
Definition CanonicalMIMEHeaderKey (s : string) : string :=
  if forallb validHeaderFieldByte (list_ascii_of_string s) then recase true s else s.

Definition values (h : Header) (key : string) : list string := default [] (h !! key).

(** [h.Set], [h.Add], [h.Del]. *)
Definition HeaderSet (h : Header) (key value : string) : Header :=
  <[CanonicalMIMEHeaderKey key := [value]]> h.

Definition HeaderAdd (h : Header) (key value : string) : Header :=
  <[CanonicalMIMEHeaderKey key := values h (CanonicalMIMEHeaderKey key) ++ [value]]> h.

Definition HeaderDel (h : Header) (key : string) : Header :=
  delete (CanonicalMIMEHeaderKey key) h.

(** The header map the client builds from the header lines of a response:
    each line's value is added under the line's key. *)
Definition readHeader (lines : list (string * string)) : Header :=
  fold_left (fun h line => HeaderAdd h (fst line) (snd line)) lines ∅.

(** The server's [ResponseWriter]: the header map the handler edits, the
    status line and header block once they are committed, the body written
    so far, and how many [WriteHeader] calls came too late. *)
Record ResponseWriter : Type := mkWriter {
  handlerHeader : Header;
  committed : option (nat * Header);
  written : string;
  superfluous : nat
}.

Definition NewResponseWriter : ResponseWriter := mkWriter ∅ None EmptyString 0.

Definition editHeader (f : Header -> Header) (w : ResponseWriter) : ResponseWriter :=
  mkWriter (f (handlerHeader w)) (committed w) (written w) (superfluous w).

(** [w.WriteHeader(code)]: the first call commits the status and a copy of
    the header map; a later call changes nothing. *)
Definition WriteHeader (w : ResponseWriter) (code : nat) : ResponseWriter :=
  match committed w with
  | Some _ => mkWriter (handlerHeader w) (committed w) (written w) (S (superfluous w))
  | None => mkWriter (handlerHeader w) (Some (code, handlerHeader w)) (written w) (superfluous w)
  end.

(** [w.Write(data)]: commits status 200 first when nothing is committed. *)
Definition Write (w : ResponseWriter) (data : string) : ResponseWriter :=
  let w' := match committed w with Some _ => w | None => WriteHeader w 200 end in
  mkWriter (handlerHeader w') (committed w') (written w' +:+ data) (superfluous w').

(** [fmt.Fprintln(w, text)]. *)
Definition Fprintln (w : ResponseWriter) (text : string) : ResponseWriter :=
  Write w (text +:+ newline).

(** [http.Error(w, text, code)]. *)
Definition Error (w : ResponseWriter) (text : string) (code : nat) : ResponseWriter :=
  let w1 := editHeader (fun h => HeaderDel h "Content-Length") w in
  let w2 := editHeader (fun h => HeaderSet h "Content-Type" "text/plain; charset=utf-8") w1 in
  let w3 := editHeader (fun h => HeaderSet h "X-Content-Type-Options" "nosniff") w2 in
  Fprintln (WriteHeader w3 code) text.

Definition StatusOK : nat := 200.
Definition StatusBadRequest : nat := 400.
Definition StatusNotFound : nat := 404.
Definition StatusUnprocessableEntity : nat := 422.
Definition StatusInternalServerError : nat := 500.

(** The status the caller receives. *)
Definition status (w : ResponseWriter) : option nat := fst <$> committed w.

(** A body being read: the bytes its sender wrote and, when the transfer
    breaks off, after how many bytes and with which error. *)
Record Reader : Type := mkReader { content : string; cut : option (nat * error) }.

Definition received (r : Reader) : string :=
  match cut r with
  | None => content r
  | Some (n, _) => String.substring 0 n (content r)
  end.

(** [io.ReadAll(r)]. *)
Definition ReadAll (r : Reader) : result string :=
  match cut r with
  | None => Ok (content r)
  | Some (_, e) => Err e
  end.

(** [io.Copy(w, r)]: what could be read is written; the read error, if
    any, is the result. *)
Definition Copy (w : ResponseWriter) (r : Reader) : ResponseWriter * option error :=
  (match received r with
   | EmptyString => w
   | String _ _ => Write w (received r)
   end,
   snd <$> cut r).

(** An outbound request and the response to it. *)
Record Request : Type := mkRequest { Method : string; URL : string; Ctx : Trace.Context }.

Record Response : Type := mkResponse {
  StatusCode : nat;
  HeaderLines : list (string * string);
  Body : Reader
}.

(** The operation that an [*url.Error] of the client names: the method
    with its tail in lower case, [Get] for none. *)
Definition isPrint (c : ascii) : bool := Regexp.inRange " " "~" c.

Definition lowerByte (c : ascii) : ascii :=
  if isUpper c then ascii_of_nat (nat_of_ascii c + 32) else c.

Fixpoint lower (s : string) : string :=
  match s with
  | EmptyString => EmptyString
  | String c rest => String (lowerByte c) (lower rest)
  end.

Definition urlErrorOp (method : string) : string :=
  match method with
  | EmptyString => "Get"
  | String c rest =>
      if forallb isPrint (list_ascii_of_string rest) then String c (lower rest) else method
  end.

(** The [*url.Error] in which [client.Do] wraps the error of its
    transport: the operation, the URL as [urlText] prints and quotes it,
    and the cause. *)
Definition clientError (urlText : string -> string) (req : Request) (cause : error) : error :=
  let 'mkError text := cause in
  mkError (urlErrorOp (Method req) +:+ " " +:+ urlText (URL req) +:+ ": " +:+ text).

(** [resp.Header]. *)
Definition ResponseHeader (resp : Response) : Header := readHeader (HeaderLines resp).

(** An inbound request, as a handler sees it: its body, the parameters the
    router took from the path, and its context. *)
Record ServerRequest : Type := mkServerRequest {
  RequestBody : string;
  URLParams : gmap string string;
  Context : Trace.Context
}.

(** [chi.URLParam(r, key)]. *)
Definition URLParam (r : ServerRequest) (key : string) : string :=
  default EmptyString (URLParams r !! key).

(** [http.NewRequestWithContext(ctx, method, url, nil)] with a valid
    method: it fails when the URL does not parse. *)
Definition NewRequestWithContext (urlError : string -> option error)
    (ctx : Trace.Context) (method url : string) : result Request :=
  match urlError url with
  | Some e => Err e
  | None => Ok (mkRequest method url ctx)
  end.

End Http.

(** ** The library and the world *)

(** The pure library functions the model does not define. *)
Record Lib : Type := mkLib {
  json : Json.Codec;
  urlError : string -> option error;
  urlText : string -> string;
  clientSpanName : string -> string
}.

(** What lies outside the process: its environment variables and the
    servers its HTTP clients talk to, which answer the request that a
    client is given. *)
Record World : Type := mkWorld {
  Getenv : string -> string;
  RoundTrip : Http.Request -> result Http.Response
}.

(** The effects of a handler: the tracer, and the outbound calls issued so
    far, in order. *)
Record state : Type := mkState { tracer : Trace.Tracer; calls : list Http.Request }.

Definition M (A : Type) : Type := state -> A * state.

#[export] Instance M_ret : MRet M := fun A a st => (a, st).
#[export] Instance M_bind : MBind M := fun A B f m st => let (a, st') := m st in f a st'.

Definition onTracer {A : Type} (f : Trace.Tracer -> A * Trace.Tracer) : M A :=
  fun st => let (a, t) := f (tracer st) in (a, mkState t (calls st)).

(** [tr.Start], [span.End] and [span.SetAttributes] as effects. *)
Definition Start (ctx : Trace.Context) (name : string) : M (Trace.Context * nat) :=
  onTracer (Trace.Start ctx name).

Definition SpanEnd (span : nat) : M unit :=
  onTracer (fun t => (tt, Trace.Finish span t)).

Definition SetAttributes (span : nat) (key value : string) : M unit :=
  onTracer (fun t => (tt, Trace.SetAttributes span key value t)).

(** [http.DefaultTransport]: the call goes out, the world answers. *)
Definition DefaultTransport (world : World) (req : Http.Request) : M (result Http.Response) :=
  fun st => (RoundTrip world req, mkState (tracer st) (calls st ++ [req])).

(** [client.Do(req)] of a client on [transport]: the transport's answer;
    its error comes back wrapped in an [*url.Error]. *)
Definition Do {R : Type} (lib : Lib) (transport : Http.Request -> M (result R))
    (req : Http.Request) : M (result R) :=
  resp ← transport req;
  match resp with
  | Err err => mret (Err (Http.clientError (urlText lib) req err))
  | Ok resp => mret (Ok resp)
  end.

(** [defer cleanup]: [cleanup] runs when the body returns, whatever it
    returns. *)
Definition defer {A : Type} (cleanup : M unit) (body : M A) : M A :=
  a ← body; _ ← cleanup; mret a.

(** ** Package otelhttp: the transport of the gateway's client *)

Module Otelhttp.

(** [span.End()] on the span that a body holds. *)
Definition End (s : Trace.Span) : M Trace.Span := onTracer (Trace.End s).

(** [otelhttp.NewTransport(base).RoundTrip(req)]. A client span, child of
    the span of the request's context and named by the library after the
    method, is open while the base transport runs. When the base fails
    the span is ended at once; otherwise the response comes back with
    its body wrapped, that is, together with the span. Left out: the
    attributes and the status that the transport sets on its span, and
    the clone of the request that carries the span in its headers (the
    world answers the request as the caller built it). *)
Definition NewTransport (lib : Lib) (base : Http.Request -> M (result Http.Response))
    (req : Http.Request) : M (result (Http.Response * Trace.Span)) :=
  '(_, id) ← Start (Http.Ctx req) (clientSpanName lib (Http.Method req));
  resp ← base req;
  match resp with
  | Err err => _ ← End (Trace.mkSpan id false); mret (Err err)
  | Ok resp => mret (Ok (resp, Trace.mkSpan id false))
  end.

(** [io.Copy(w, resp.Body)] on a wrapped body: the read that meets the
    end of the body ends the span; a read error is noted on the span and
    leaves it open. *)
Definition Copy (w : Http.ResponseWriter) (s : Trace.Span) (r : Http.Reader)
  : M (Http.ResponseWriter * option error * Trace.Span) :=
  let (w', err) := Http.Copy w r in
  match err with
  | None => s' ← End s; mret (w', None, s')
  | Some e => mret (w', Some e, s)
  end.

(** [resp.Body.Close()] on a wrapped body. *)
Definition Close (s : Trace.Span) : M unit := _ ← End s; mret tt.

End Otelhttp.

(** An upper-case hexadecimal digit. *)
Definition hexDigit (n : nat) : ascii :=
  if Nat.ltb n 10 then ascii_of_nat (48 + n) else ascii_of_nat (55 + n).

(** The bytes a query component keeps as they are. *)
Definition unreserved (c : ascii) : bool :=
  Http.isLower c || Http.isUpper c || Regexp.isDigit c
  || existsb (Ascii.eqb c) ["-"; "_"; "."; "~"]%char.

(** [net/url.QueryEscape]: a space becomes [+], any other byte that is not
    kept becomes [%XX]. *)
Fixpoint QueryEscape (s : string) : string :=
  match s with
  | EmptyString => EmptyString
  | String c rest =>
      if unreserved c then String c (QueryEscape rest)
      else if Ascii.eqb c " " then String "+" (QueryEscape rest)
      else String "%" (String (hexDigit (nat_of_ascii c / 16))
             (String (hexDigit (nat_of_ascii c mod 16)) (QueryEscape rest)))
  end.

(** ** Service B: the orchestrator *)

Module ServiceB.

(** The address provider's answer. *)
Record ViaCEPResponse : Type := mkViaCEPResponse { Localidade : string; Erro : string }.

(** The weather provider's answer; [CurrentWeather] is the anonymous struct
    of the field [Current], [Current_TempC] its field [TempC]. *)
Record CurrentWeather : Type := mkCurrentWeather { Current_TempC : float }.
Record WeatherAPIResponse : Type := mkWeatherAPIResponse { Current : CurrentWeather }.

Record FinalResponse : Type := mkFinalResponse {
  City : string;
  TempC : float;
  TempF : float;
  TempK : float
}.

Definition isValidCEP (cep : string) : bool :=
  let (matched, _) := Regexp.MatchString "^[0-9]{8}$" cep in
  matched.

Section Handlers.
Variable lib : Lib.
Variable world : World.

(** Decoding into [ViaCEPResponse], by its tags [localidade] and [erro]. *)
Definition storeViaCEPResponse (v : Json.value) (old : ViaCEPResponse) (saved : option error)
  : ViaCEPResponse * option error :=
  Json.storeStruct (json lib) ["localidade"; "erro"]
    (fun f x s sv =>
       if String.eqb f "localidade" then
         let (y, sv') := Json.storeString (json lib) "ViaCEPResponse.localidade" x (Localidade s) sv in
         (mkViaCEPResponse y (Erro s), sv')
       else
         let (y, sv') := Json.storeString (json lib) "ViaCEPResponse.erro" x (Erro s) sv in
         (mkViaCEPResponse (Localidade s) y, sv'))
    "main.ViaCEPResponse" EmptyString v old saved.

(** Decoding into [WeatherAPIResponse]: [current], then [temp_c] in it. *)
Definition storeCurrentWeather (v : Json.value) (old : CurrentWeather) (saved : option error)
  : CurrentWeather * option error :=
  Json.storeStruct (json lib) ["temp_c"]
    (fun _ x s sv =>
       let (y, sv') := Json.storeFloat64 (json lib) ".current.temp_c" x (Current_TempC s) sv in
       (mkCurrentWeather y, sv'))
    ("struct { TempC float64 " +:+ dquote +:+ "json:\" +:+ dquote +:+ "temp_c\"
       +:+ dquote +:+ dquote +:+ " }")
    "WeatherAPIResponse.current" v old saved.

Definition storeWeatherAPIResponse (v : Json.value) (old : WeatherAPIResponse)
    (saved : option error) : WeatherAPIResponse * option error :=
  Json.storeStruct (json lib) ["current"]
    (fun _ x s sv =>
       let (y, sv') := storeCurrentWeather x (Current s) sv in
       (mkWeatherAPIResponse y, sv'))
    "main.WeatherAPIResponse" EmptyString v old saved.

(** [json.Unmarshal(body, &v)] with [v] a fresh variable of each type. *)
Definition unmarshalViaCEPResponse (body : string) : result ViaCEPResponse :=
  Json.Unmarshal (json lib) storeViaCEPResponse body (mkViaCEPResponse EmptyString EmptyString).

Definition unmarshalWeatherAPIResponse (body : string) : result WeatherAPIResponse :=
  Json.Unmarshal (json lib) storeWeatherAPIResponse body
    (mkWeatherAPIResponse (mkCurrentWeather 0%float)).

(** The JSON object of a [FinalResponse], from the texts of its fields:
    the fields in declaration order under their tags. *)
Definition objectText (city c f k : string) : string :=
  "{" +:+ dquote +:+ "city" +:+ dquote +:+ ":" +:+ city
  +:+ "," +:+ dquote +:+ "temp_C" +:+ dquote +:+ ":" +:+ c
  +:+ "," +:+ dquote +:+ "temp_F" +:+ dquote +:+ ":" +:+ f
  +:+ "," +:+ dquote +:+ "temp_K" +:+ dquote +:+ ":" +:+ k
  +:+ "}".

(** [json.Marshal] of a [FinalResponse]; the first field without a JSON
    form fails the whole. *)
Definition Marshal (v : FinalResponse) : result string :=
  match Json.marshalFloat64 (json lib) (TempC v) with
  | Err e => Err e
  | Ok c =>
      match Json.marshalFloat64 (json lib) (TempF v) with
      | Err e => Err e
      | Ok f =>
          match Json.marshalFloat64 (json lib) (TempK v) with
          | Err e => Err e
          | Ok k => Ok (objectText (Json.quoteString (json lib) (City v)) c f k)
          end
      end
  end.

(** [json.NewEncoder(w).Encode(v)]: the value is marshalled first; only a
    value that marshals is written, followed by a newline. *)
Definition Encode (w : Http.ResponseWriter) (v : FinalResponse)
  : Http.ResponseWriter * option error :=
  match Marshal v with
  | Err e => (w, Some e)
  | Ok text => (Http.Write w (text +:+ newline), None)
  end.

(** The two adapters. The tracer they are passed is the one of the state;
    their client is [http.DefaultClient], on the default transport;
    closing the response body has no effect that the state records. *)
Definition fetchLocation (ctx : Trace.Context) (cep : string) : M (result ViaCEPResponse) :=
  '(ctx, span) ← Start ctx "fetchLocation-viacep";
  defer (SpanEnd span)
    (let url := "https://viacep.com.br/ws/" +:+ cep +:+ "/json/" in
     match Http.NewRequestWithContext (urlError lib) ctx "GET" url with
     | Err err => mret (Err err)
     | Ok req =>
         resp ← Do lib (DefaultTransport world) req;
         match resp with
         | Err err => mret (Err err)
         | Ok resp =>
             match Http.ReadAll (Http.Body resp) with
             | Err err => mret (Err err)
             | Ok body =>
                 match unmarshalViaCEPResponse body with
                 | Err err => mret (Err err)
                 | Ok viaCEPResponse =>
                     if String.eqb (Erro viaCEPResponse) "true"
                     then mret (Err (Errorf "can not find zipcode"))
                     else mret (Ok viaCEPResponse)
                 end
             end
         end
     end).

Definition fetchWeather (ctx : Trace.Context) (city : string) : M (result WeatherAPIResponse) :=
  '(ctx, span) ← Start ctx "fetchWeather-weatherapi";
  defer (SpanEnd span)
    (let apiKey := Getenv world "WEATHER_API_KEY" in
     if String.eqb apiKey EmptyString
     then mret (Err (Errorf "WEATHER_API_KEY não definida"))
     else
       let encodedCity := QueryEscape city in
       let url := "http://api.weatherapi.com/v1/current.json?key=" +:+ apiKey
                  +:+ "&q=" +:+ encodedCity +:+ "&aqi=no" in
       match Http.NewRequestWithContext (urlError lib) ctx "GET" url with
       | Err err => mret (Err err)
       | Ok req =>
           resp ← Do lib (DefaultTransport world) req;
           match resp with
           | Err err => mret (Err err)
           | Ok resp =>
               match Http.ReadAll (Http.Body resp) with
               | Err err => mret (Err (Errorf_w "erro ao ler resposta da WeatherAPI: " err))
               | Ok body =>
                   match unmarshalWeatherAPIResponse body with
                   | Err err =>
                       mret (Err (Errorf_w "erro ao decodificar JSON da WeatherAPI: " err))
                   | Ok weatherAPIResponse => mret (Ok weatherAPIResponse)
                   end
               end
           end
       end).

(** The handler of [GET /weather/{cep}]. It takes the response writer and
    returns it as the calls on it have left it. *)
Definition GetWeatherHandler (w : Http.ResponseWriter) (r : Http.ServerRequest)
  : M Http.ResponseWriter :=
  let ctx := Http.Context r in
  let cep := Http.URLParam r "cep" in
  if negb (isValidCEP cep)
  then mret (Http.Error w "invalid zipcode" Http.StatusUnprocessableEntity)
  else
    let span := Trace.currentSpan ctx in
    _ ← SetAttributes span "cep" cep;
    location ← fetchLocation ctx cep;
    match location with
    | Err err =>
        if String.eqb (Error err) "can not find zipcode"
        then mret (Http.Error w "can not find zipcode" Http.StatusNotFound)
        else mret (Http.Error w (Error err) Http.StatusInternalServerError)
    | Ok location =>
        weather ← fetchWeather ctx (Localidade location);
        match weather with
        | Err err => mret (Http.Error w (Error err) Http.StatusInternalServerError)
        | Ok weather =>
            let tempC := Current_TempC (Current weather) in
            let tempF := (tempC * 1.8 + 32)%float in
            let tempK := (tempC + 273)%float in
            let response := mkFinalResponse (Localidade location) tempC tempF tempK in
            let w := Http.editHeader (fun h => Http.HeaderSet h "Content-Type" "application/json") w in
            let w := Http.WriteHeader w Http.StatusOK in
            let (w, err) := Encode w response in
            match err with
            | Some err => mret (Http.Error w (Error err) Http.StatusInternalServerError)
            | None => mret w
            end
        end
    end.

End Handlers.

End ServiceB.

(** ** Service A: the gateway *)

Module ServiceA.

Record CEPRequest : Type := mkCEPRequest { CEP : string }.

Definition isValidCEP (cep : string) : bool :=
  let (matched, _) := Regexp.MatchString "^[0-9]{8}$" cep in
  matched.

(** The two nested [range] loops over the response's header map. The map
    is visited in some order without repetition; [map_to_list] is one. *)
Definition copyHeader (entries : list (string * list string)) (w : Http.ResponseWriter)
  : Http.ResponseWriter :=
  fold_left
    (fun w entry =>
       fold_left
         (fun w value => Http.editHeader (fun h => Http.HeaderAdd h (fst entry) value) w)
         (snd entry) w)
    entries w.

Section Handlers.
Variable lib : Lib.
Variable world : World.

(** Decoding into [CEPRequest], by its tag [cep]. *)
Definition storeCEPRequest (v : Json.value) (old : CEPRequest) (saved : option error)
  : CEPRequest * option error :=
  Json.storeStruct (json lib) ["cep"]
    (fun _ x s sv =>
       let (y, sv') := Json.storeString (json lib) "CEPRequest.cep" x (CEP s) sv in
       (mkCEPRequest y, sv'))
    "main.CEPRequest" EmptyString v old saved.

(** [json.NewDecoder(r.Body).Decode(&req)] with [req] a fresh variable. *)
Definition decodeCEPRequest (body : string) : result CEPRequest :=
  Json.Decode (json lib) storeCEPRequest body (mkCEPRequest EmptyString).

(** The handler of [POST /weather]. Its client is built on otelhttp's
    transport. The result of [io.Copy] is dropped, as in the source; the
    deferred [resp.Body.Close()] runs last, on the body as the copy left
    it. *)
Definition GetWeatherViaServiceB (w : Http.ResponseWriter) (r : Http.ServerRequest)
  : M Http.ResponseWriter :=
  let ctx := Http.Context r in
  match decodeCEPRequest (Http.RequestBody r) with
  | Err _ => mret (Http.Error w "invalid request body" Http.StatusBadRequest)
  | Ok req =>
      if negb (isValidCEP (CEP req))
      then mret (Http.Error w "invalid zipcode" Http.StatusUnprocessableEntity)
      else
        let url := "http://service-b:8081/weather/" +:+ CEP req in
        match Http.NewRequestWithContext (urlError lib) ctx "GET" url with
        | Err _ =>
            mret (Http.Error w "erro ao criar requisição para o serviço B"
                    Http.StatusInternalServerError)
        | Ok httpReq =>
            resp ← Do lib (Otelhttp.NewTransport lib (DefaultTransport world)) httpReq;
            match resp with
            | Err _ =>
                mret (Http.Error w "erro ao chamar o serviço B" Http.StatusInternalServerError)
            | Ok (resp, span) =>
                let w := copyHeader (map_to_list (Http.ResponseHeader resp)) w in
                let w := Http.WriteHeader w (Http.StatusCode resp) in
                '(w, _, span) ← Otelhttp.Copy w span (Http.Body resp);
                _ ← Otelhttp.Close span;
                mret w
            end
        end
  end.

End Handlers.

End ServiceA.

(** ** The specification's vocabulary *)

(** An ASCII digit, by its code. *)
Definition asciiDigit (c : ascii) : Prop := 48 <= nat_of_ascii c <= 57.

(** "Exactly eight ASCII digit characters, no leading or trailing content,
    no separators". *)
Definition eightAsciiDigits (s : string) : Prop :=
  String.length s = 8 /\ Forall asciiDigit (list_ascii_of_string s).

(** Reading [n] bytes of the range [[lo-hi]] off the front of [s]. *)
Fixpoint stripRange (lo hi : ascii) (n : nat) (s : string) : option string :=
  match n with
  | 0 => Some s
  | S n' =>
      match s with
      | String c rest => if Regexp.inRange lo hi c then stripRange lo hi n' rest else None
      | EmptyString => None
      end
  end.

(** The validator's pattern, compiled. *)
Definition cepRegex : Regexp.regex :=
  Regexp.Concat Regexp.BeginText
    (Regexp.Concat (Regexp.Repeat (Regexp.CharRange "0" "9") 8)
       (Regexp.Concat Regexp.EndText Regexp.Empty)).

(** The header block of a JSON answer and the one [http.Error] sets. *)
Definition jsonHeader : Http.Header := {[ "Content-Type" := ["application/json"] ]}.

Definition textHeader : Http.Header :=
  <["X-Content-Type-Options" := ["nosniff"]]>
    {[ "Content-Type" := ["text/plain; charset=utf-8"] ]}.

(** A complete error response: one status line, the plain-text header
    block, one line of text, and no attempt at a second status. *)
Definition errorResponse (code : nat) (text : string) (w : Http.ResponseWriter) : Prop :=
  Http.committed w = Some (code, textHeader)
  /\ Http.written w = text +:+ newline
  /\ Http.superfluous w = 0.

(** A complete success response: status 200, the JSON header block, the
    whole payload on one line. *)
Definition successResponse (payload : string) (w : Http.ResponseWriter) : Prop :=
  Http.committed w = Some (Http.StatusOK, jsonHeader)
  /\ Http.written w = payload +:+ newline
  /\ Http.superfluous w = 0.

(** The orchestrator's state once it has put the postal code on the span
    of the request. *)
Definition attributed (r : Http.ServerRequest) (st : state) : state :=
  snd (SetAttributes (Trace.currentSpan (Http.Context r)) "cep" (Http.URLParam r "cep") st).

(** A member that the decoder stores into the field tagged [cep]. *)
Definition namesCep (member : string * Json.value) : Prop :=
  Json.foldName (fst member) = Json.foldName "cep".

(** A JSON body without postal code: [null], or an object in which every
    member named [cep] (in any letter case) holds the empty string. *)
Definition noPostalCode (v : Json.value) : Prop :=
  v = Json.Null
  \/ exists members,
       v = Json.Object members
       /\ Forall (fun member => namesCep member -> snd member = Json.Str EmptyString) members.

(** Every key of a header map is in canonical form. *)
Definition canonicalKeys (h : Http.Header) : Prop :=
  map_Forall (fun key _ => Http.CanonicalMIMEHeaderKey key = key) h.

(** Whether a text ends with the line terminator. *)
Fixpoint endsLine (s : string) : bool :=
  match s with
  | EmptyString => false
  | String c EmptyString => Ascii.eqb c (ascii_of_nat 10)
  | String _ rest => endsLine rest
  end.

(** The orchestrator reached the encoding of its payload: both adapters
    answered, and marshalling the [FinalResponse] gave [outcome]. *)
Definition payloadEncoding (lib : Lib) (world : World) (r : Http.ServerRequest) (st : state)
    (outcome : result string) : Prop :=
  exists location st1 weather st2,
    ServiceB.fetchLocation lib world (Http.Context r) (Http.URLParam r "cep") (attributed r st)
    = (Ok location, st1)
    /\ ServiceB.fetchWeather lib world (Http.Context r) (ServiceB.Localidade location) st1
       = (Ok weather, st2)
    /\ ServiceB.Marshal lib
         (ServiceB.mkFinalResponse (ServiceB.Localidade location)
            (ServiceB.Current_TempC (ServiceB.Current weather))
            (ServiceB.Current_TempC (ServiceB.Current weather) * 1.8 + 32)%float
            (ServiceB.Current_TempC (ServiceB.Current weather) + 273)%float)
       = outcome.

(** One of the orchestrator's adapters returned the error [e]. *)
Definition adapterFailure (lib : Lib) (world : World) (r : Http.ServerRequest) (st : state)
    (e : error) : Prop :=
  (exists st1,
      ServiceB.fetchLocation lib world (Http.Context r) (Http.URLParam r "cep")
        (attributed r st) = (Err e, st1))
  \/ (exists location st1 st2,
        ServiceB.fetchLocation lib world (Http.Context r) (Http.URLParam r "cep")
          (attributed r st) = (Ok location, st1)
        /\ ServiceB.fetchWeather lib world (Http.Context r) (ServiceB.Localidade location) st1
           = (Err e, st2)).

(** The gateway got as far as calling the orchestrator with the request
    [httpReq]. *)
Definition forwarded (lib : Lib) (r : Http.ServerRequest) (httpReq : Http.Request) : Prop :=
  exists req,
    ServiceA.decodeCEPRequest lib (Http.RequestBody r) = Ok req
    /\ ServiceA.isValidCEP (ServiceA.CEP req) = true
    /\ Http.NewRequestWithContext (urlError lib) (Http.Context r) "GET"
         ("http://service-b:8081/weather/" +:+ ServiceA.CEP req) = Ok httpReq.

(** The gateway's answer is the relay of [resp]: its status, and its body
    whole, or, when the body broke off after [n] bytes, those bytes. *)
Definition relayOf (resp : Http.Response) (w : Http.ResponseWriter) : Prop :=
  Http.status w = Some (Http.StatusCode resp)
  /\ Http.superfluous w = 0
  /\ match Http.cut (Http.Body resp) with
     | None => Http.written w = Http.content (Http.Body resp)
     | Some (n, _) => Http.written w = String.substring 0 n (Http.content (Http.Body resp))
     end.

(** ** Concrete libraries and worlds for the examples *)

Module Examples.

Fixpoint lookupText {A : Type} (table : list (string * A)) (key : string) : option A :=
  match table with
  | [] => None
  | (k, a) :: rest => if String.eqb k key then Some a else lookupText rest key
  end.

Fixpoint lookupFloat (table : list (float * string)) (f : float) : string :=
  match table with
  | [] => "?"
  | (g, text) :: rest => if PrimFloat.eqb f g then text else lookupFloat rest f
  end.

(** A JSON string without characters that need escaping. *)
Definition quoted (s : string) : string := dquote +:+ s +:+ dquote.

(** A codec that knows the JSON texts, number literals and floats of three
    tables, for use on exactly those. *)
Definition tableCodec (texts : list (string * Json.value)) (numbers : list (string * float))
    (floats : list (float * string)) : Json.Codec :=
  Json.mkCodec
    (fun text =>
       match lookupText texts text with
       | Some v => Ok v
       | None => Err (mkError "unexpected EOF")
       end)
    (fun text =>
       match lookupText texts text with
       | Some v => inr v
       | None => inl Json.UnexpectedEnd
       end)
    (lookupText numbers)
    (fun what field gotype =>
       what +:+ " into Go struct field " +:+ field +:+ " of type " +:+ gotype)
    (lookupFloat floats) quoted.

(** The client's view of a world: the answer to each URL of a table, and a
    connection failure for any other. *)
Definition servers (table : list (string * result Http.Response)) (req : Http.Request)
  : result Http.Response :=
  match lookupText table (Http.URL req) with
  | Some answer => answer
  | None => Err (mkError "dial tcp: lookup failed: no such host")
  end.

Definition environment (table : list (string * string)) (name : string) : string :=
  default EmptyString (lookupText table name).

Definition whole (text : string) : Http.Reader := Http.mkReader text None.

(** The texts the providers and callers send in the examples. *)
Definition foundText : string :=
  "{" +:+ quoted "localidade" +:+ ":" +:+ quoted "São Paulo" +:+ "}".
Definition notFoundText : string := "{" +:+ quoted "erro" +:+ ":" +:+ quoted "true" +:+ "}".
Definition flaggedText : string :=
  "{" +:+ quoted "localidade" +:+ ":" +:+ quoted "São Paulo" +:+ ","
  +:+ quoted "erro" +:+ ":" +:+ quoted "false" +:+ "}".
Definition weatherText : string :=
  "{" +:+ quoted "current" +:+ ":{" +:+ quoted "temp_c" +:+ ":20.0}}".
Definition hotText : string :=
  "{" +:+ quoted "current" +:+ ":{" +:+ quoted "temp_c" +:+ ":1e308}}".
Definition shortCepText : string := "{" +:+ quoted "cep" +:+ ":" +:+ quoted "12345" +:+ "}".
Definition goodCepText : string := "{" +:+ quoted "cep" +:+ ":" +:+ quoted "01001000" +:+ "}".
Definition emptyObjectText : string := "{}".
Definition emptyArrayText : string := "[]".
Definition payloadText : string :=
  "{" +:+ quoted "city" +:+ ":" +:+ quoted "São Paulo" +:+ "," +:+ quoted "temp_C" +:+ ":20,"
  +:+ quoted "temp_F" +:+ ":68," +:+ quoted "temp_K" +:+ ":293}".

Definition codec : Json.Codec :=
  tableCodec
    [ (foundText, Json.Object [("localidade", Json.Str "São Paulo")]);
      (notFoundText, Json.Object [("erro", Json.Str "true")]);
      (flaggedText,
       Json.Object [("localidade", Json.Str "São Paulo"); ("erro", Json.Str "false")]);
      (weatherText, Json.Object [("current", Json.Object [("temp_c", Json.Number "20.0")])]);
      (hotText, Json.Object [("current", Json.Object [("temp_c", Json.Number "1e308")])]);
      (shortCepText, Json.Object [("cep", Json.Str "12345")]);
      (goodCepText, Json.Object [("cep", Json.Str "01001000")]);
      (emptyObjectText, Json.Object []);
      (emptyArrayText, Json.Array []) ]
    [ ("20.0", 20%float); ("1e308", 1e308%float) ]
    [ (20%float, "20"); (68%float, "68"); (293%float, "293") ].

Definition lib : Lib := mkLib codec (fun _ => None) quoted (fun method => "HTTP " +:+ method).

Definition viaCepURL : string := "https://viacep.com.br/ws/01001000/json/".
Definition weatherURL (key : string) : string :=
  "http://api.weatherapi.com/v1/current.json?key=" +:+ key +:+ "&q=S%C3%A3o+Paulo&aqi=no".
Definition serviceBURL : string := "http://service-b:8081/weather/01001000".

Definition jsonLines : list (string * string) := [("content-type", "application/json")].

Definition textLines : list (string * string) :=
  [("content-type", "text/plain; charset=utf-8"); ("x-content-type-options", "nosniff")].

Definition answer (text : string) : result Http.Response :=
  Ok (Http.mkResponse 200 jsonLines (whole text)).

(** The providers answer; São Paulo is at 20 degrees. *)
Definition fairWorld : World :=
  mkWorld (environment [("WEATHER_API_KEY", "k1")])
    (servers [(viaCepURL, answer foundText); (weatherURL "k1", answer weatherText)]).

(** The same answers from a world with another key, other headers and an
    error flag that is set, though not to [true]. *)
Definition otherWorld : World :=
  mkWorld (environment [("WEATHER_API_KEY", "k2")])
    (servers [(viaCepURL, Ok (Http.mkResponse 203 [] (whole flaggedText)));
              (weatherURL "k2", answer weatherText)]).


Definition offlineWorld : World :=
  mkWorld (environment [("WEATHER_API_KEY", "k1")]) (servers []).

Definition noKeyWorld : World :=
  mkWorld (environment [])
    (servers [(viaCepURL, answer foundText); (weatherURL "k1", answer weatherText)]).

Definition scorchingWorld : World :=
  mkWorld (environment [("WEATHER_API_KEY", "k1")])
    (servers [(viaCepURL, answer foundText); (weatherURL "k1", answer hotText)]).

(** The orchestrator's answers, as the gateway's client receives them. *)
Definition notFoundAnswer : Http.Response :=
  Http.mkResponse 404 (textLines ++ [("content-length", "21")])
    (whole ("can not find zipcode" +:+ newline)).

Definition brokenAnswer : Http.Response :=
  Http.mkResponse 200 jsonLines
    (Http.mkReader (payloadText +:+ newline) (Some (7, mkError "unexpected EOF"))).

Definition gatewayWorld (resp : Http.Response) : World :=
  mkWorld (environment []) (servers [(serviceBURL, Ok resp)]).

Definition start : state := mkState (Trace.mkTracer 1 []) [].

Definition toOrchestrator (cep : string) : Http.ServerRequest :=
  Http.mkServerRequest EmptyString {[ "cep" := cep ]} (Trace.mkContext 0).

Definition toGateway (body : string) : Http.ServerRequest :=
  Http.mkServerRequest body ∅ (Trace.mkContext 0).

End Examples.

(** ** Package tracer and the two [main] functions *)

Module Tracer.

(** The only sampler and the only propagator the program uses. *)
Inductive Sampler : Type := AlwaysSample.
Inductive Propagator : Type := TraceContext.

(** A tracer provider, by what it was built from: its sampler, the service
    name of its resource, and the collector that its batch processor's
    exporter is connected to. *)
Record TracerProvider : Type := mkTracerProvider {
  sampler : Sampler;
  serviceName : string;
  collector : string
}.

(** What a process does that outlives a call: the gRPC clients it
    creates, the globals it sets, what it logs and prints, the server it
    runs and the providers it shuts down. *)
Inductive event : Type :=
| NewClient (target : string)
| SetTracerProvider (tp : TracerProvider)
| SetTextMapPropagator (p : Propagator)
| Log (line : string)
| Println (line : string)
| ListenAndServe (addr : string) (routes : list (option string * string * option string))
| Shutdown (tp : TracerProvider).

(** The machine a process runs on: its environment, whether each step of
    the tracing set-up fails, the error with which [http.ListenAndServe]
    returns ([None]: it serves for ever and never returns; when it returns
    its error is not nil), and whether the shutdown of the provider
    fails. *)
Record Host : Type := mkHost {
  env : string -> string;
  resourceError : string -> option error;
  clientError : string -> option error;
  exporterError : string -> option error;
  serveError : string -> option error;
  shutdownError : option error
}.

Definition P (A : Type) : Type := list event -> A * list event.

Definition InitTracerProvider (host : Host) (serviceName collectorURL : string)
  : P (result TracerProvider) :=
  fun log =>
    match resourceError host serviceName with
    | Some err => (Err (Errorf_w "falha ao criar recurso: " err), log)
    | None =>
        match clientError host collectorURL with
        | Some err => (Err (Errorf_w "falha ao criar cliente gRPC para o coletor: " err), log)
        | None =>
            let log := log ++ [NewClient collectorURL] in
            match exporterError host collectorURL with
            | Some err => (Err (Errorf_w "falha ao criar exportador de trace: " err), log)
            | None =>
                let tp := mkTracerProvider AlwaysSample serviceName collectorURL in
                (Ok tp, log ++ [SetTracerProvider tp; SetTextMapPropagator TraceContext])
            end
        end
    end.

(** How a [main] ends: [log.Fatal] exits with status 1 without running
    the deferred calls; a server that never stops keeps [main] in
    [http.ListenAndServe]; otherwise [main] returns. *)
Inductive ending : Type :=
| Exited (code : nat)
| Serving
| Returned.

(** The deferred shutdown of both [main]s. *)
Definition shutdown (host : Host) (tp : TracerProvider) : P unit :=
  fun log =>
    let log := log ++ [Shutdown tp] in
    match shutdownError host with
    | Some err => (tt, log ++ [Log ("erro ao desligar tracer provider: " +:+ Error err)])
    | None => (tt, log)
    end.

(** [collectorURL := os.Getenv(...)], with its fallback. *)
Definition collectorURL (host : Host) : string :=
  if String.eqb (env host "OTEL_EXPORTER_OTLP_ENDPOINT") EmptyString
  then "localhost:4317"
  else env host "OTEL_EXPORTER_OTLP_ENDPOINT".

End Tracer.

(** [main] of service B. A route is a method ([None]: every method), a
    pattern and, for a handler wrapped by the tracing middleware, the name
    of the span it opens; the request logger of the router is left out. *)
Module ServiceBMain.

Definition routes : list (option string * string * option string) :=
  [ (Some "GET", "/weather/{cep}", None);
    (None, "/weather/{cep}", Some "WeatherHandler") ].

Definition main (host : Tracer.Host) : Tracer.P Tracer.ending :=
  fun log =>
    let apiKey := Tracer.env host "WEATHER_API_KEY" in
    if String.eqb apiKey EmptyString
    then (Tracer.Exited 1, log ++ [Tracer.Log "API key not configured"])
    else
      let collectorURL := Tracer.collectorURL host in
      match Tracer.InitTracerProvider host "service-b" collectorURL log with
      | (Err err, log) =>
          (Tracer.Exited 1,
           log ++ [Tracer.Log ("falha ao inicializar tracer provider: " +:+ Error err)])
      | (Ok tp, log) =>
          let log := log ++ [Tracer.Println "Serviço B está a correr na porta 8081..."] in
          let log := log ++ [Tracer.ListenAndServe ":8081" routes] in
          match Tracer.serveError host ":8081" with
          | None => (Tracer.Serving, log)
          | Some err =>
              let log :=
                log ++ [Tracer.Println ("Erro ao iniciar o servidor: " +:+ Error err)] in
              let (_, log) := Tracer.shutdown host tp log in
              (Tracer.Returned, log)
          end
      end.

End ServiceBMain.

(** [main] of service A. *)
Module ServiceAMain.

Definition routes : list (option string * string * option string) :=
  [ (Some "POST", "/weather", Some "WeatherHandler") ].

Definition main (host : Tracer.Host) : Tracer.P Tracer.ending :=
  fun log =>
    let collectorURL := Tracer.collectorURL host in
    match Tracer.InitTracerProvider host "service-a" collectorURL log with
    | (Err err, log) =>
        (Tracer.Exited 1,
         log ++ [Tracer.Log ("falha ao inicializar tracer provider: " +:+ Error err)])
    | (Ok tp, log) =>
        let log := log ++ [Tracer.Println "Serviço A está a correr na porta 8080..."] in
        let log := log ++ [Tracer.ListenAndServe ":8080" routes] in
        match Tracer.serveError host ":8080" with
        | None => (Tracer.Serving, log)
        | Some _ =>
            let (_, log) := Tracer.shutdown host tp log in
            (Tracer.Returned, log)
        end
    end.

End ServiceAMain.

(** ** More vocabulary *)

(** A JSON value that a [string] field accepts: a string, or [null]. *)
Definition textOrNull (x : Json.value) : bool :=
  match x with
  | Json.Str _ | Json.Null => true
  | _ => false
  end.

(** A well-formed body that does not decode into a [CEPRequest]: a value
    that is neither [null] nor an object, or an object with a member named
    [cep] (in any letter case) that holds neither a string nor [null]. *)
Definition mistyped (v : Json.value) : Prop :=
  match v with
  | Json.Null => False
  | Json.Object members =>
      Exists (fun member => namesCep member /\ textOrNull (snd member) = false) members
  | _ => True
  end.

(** No member of the value selects one of the fields [names]. *)
Definition selectsNone (names : list string) (v : Json.value) : Prop :=
  v = Json.Null
  \/ exists members,
       v = Json.Object members
       /\ Forall (fun member => Json.findField names (fst member) = None) members.

(** Two answers of a server that differ at most in status and headers. *)
Definition sameBody (a b : result Http.Response) : Prop :=
  match a, b with
  | Err e, Err e' => e = e'
  | Ok resp, Ok resp' => Http.Body resp = Http.Body resp'
  | _, _ => False
  end.

(** The bytes of an escaped query component. *)
Definition queryByte (c : ascii) : bool :=
  unreserved c || Ascii.eqb c "+" || Ascii.eqb c "%".

Definition hexValue (c : ascii) : nat :=
  if Regexp.isDigit c then nat_of_ascii c - 48 else nat_of_ascii c - 55.

(** The reading of an escaped query component: [+] is a space, [%XX] the
    byte of that code, any other byte itself. *)
Fixpoint queryUnescape (s : string) : string :=
  match s with
  | EmptyString => EmptyString
  | String c rest =>
      if Ascii.eqb c "+" then String " " (queryUnescape rest)
      else if Ascii.eqb c "%" then
        match rest with
        | String h (String l rest') =>
            String (ascii_of_nat (16 * hexValue h + hexValue l)) (queryUnescape rest')
        | _ => String c (queryUnescape rest)
        end
      else String c (queryUnescape rest)
  end.

(** The URLs of the two providers. *)
Definition locationURL (cep : string) : string :=
  "https://viacep.com.br/ws/" +:+ cep +:+ "/json/".

Definition weatherURL (apiKey city : string) : string :=
  "http://api.weatherapi.com/v1/current.json?key=" +:+ apiKey
  +:+ "&q=" +:+ QueryEscape city +:+ "&aqi=no".

(** The events of a log before the first one of which [p] holds. *)
Fixpoint before {A : Type} (p : A -> bool) (l : list A) : list A :=
  match l with
  | [] => []
  | x :: rest => if p x then [] else x :: before p rest
  end.

(** The provider that a service installs, and the set-up of tracing in
    the order of its events. *)
Definition provider (name : string) (host : Tracer.Host) : Tracer.TracerProvider :=
  Tracer.mkTracerProvider Tracer.AlwaysSample name (Tracer.collectorURL host).

Definition tracingSetUp (name : string) (host : Tracer.Host) : list Tracer.event :=
  [Tracer.NewClient (Tracer.collectorURL host);
   Tracer.SetTracerProvider (provider name host);
   Tracer.SetTextMapPropagator Tracer.TraceContext].

Definition isShutdown (e : Tracer.event) : bool :=
  match e with Tracer.Shutdown _ => true | _ => false end.

Definition isListen (e : Tracer.event) : bool :=
  match e with Tracer.ListenAndServe _ _ => true | _ => false end.

Definition isGlobal (e : Tracer.event) : bool :=
  match e with
  | Tracer.SetTracerProvider _ | Tracer.SetTextMapPropagator _ => true
  | _ => false
  end.

(** ** More examples *)

Module Cases.

Definition twoCepsText : string :=
  "{" +:+ Examples.quoted "cep" +:+ ":" +:+ Examples.quoted "99999999" +:+ ","
  +:+ Examples.quoted "CEP" +:+ ":" +:+ Examples.quoted "01001000" +:+ "}".

Definition numberCepText : string := "{" +:+ Examples.quoted "cep" +:+ ":1001000}".

Definition errorText : string :=
  "{" +:+ Examples.quoted "error" +:+ ":{" +:+ Examples.quoted "code" +:+ ":2006}}".

Definition codec : Json.Codec :=
  Examples.tableCodec
    [ (twoCepsText,
       Json.Object [("cep", Json.Str "99999999"); ("CEP", Json.Str "01001000")]);
      (numberCepText, Json.Object [("cep", Json.Number "1001000")]);
      (errorText, Json.Object [("error", Json.Object [("code", Json.Number "2006")])]);
      (Examples.foundText, Json.Object [("localidade", Json.Str "São Paulo")]);
      (Examples.weatherText,
       Json.Object [("current", Json.Object [("temp_c", Json.Number "20.0")])]);
      (Examples.emptyObjectText, Json.Object []) ]
    [ ("20.0", 20%float); ("2006", 2006%float) ]
    [ (0%float, "0"); (32%float, "32"); (273%float, "273");
      (20%float, "20"); (68%float, "68"); (293%float, "293") ].

Definition lib : Lib :=
  mkLib codec (fun _ => None) Examples.quoted (fun method => "HTTP " +:+ method).

(** The providers answer as in [Examples.fairWorld], under other statuses
    and with other headers. *)
Definition rudeWorld : World :=
  mkWorld (Examples.environment [("WEATHER_API_KEY", "k1")])
    (Examples.servers
       [(Examples.viaCepURL,
         Ok (Http.mkResponse 500 [("retry-after", "1")] (Examples.whole Examples.foundText)));
        (Examples.weatherURL "k1",
         Ok (Http.mkResponse 401 [] (Examples.whole Examples.weatherText)))]).

(** The weather provider refuses the key: status 401 and an error object. *)
Definition refusedWorld : World :=
  mkWorld (Examples.environment [("WEATHER_API_KEY", "k1")])
    (Examples.servers
       [(Examples.viaCepURL, Examples.answer Examples.foundText);
        (Examples.weatherURL "k1",
         Ok (Http.mkResponse 401 Examples.jsonLines (Examples.whole errorText)))]).

(** The address provider answers [{}]. *)
Definition blankWorld : World :=
  mkWorld (Examples.environment [("WEATHER_API_KEY", "k1")])
    (Examples.servers [(Examples.viaCepURL, Examples.answer Examples.emptyObjectText)]).

(** The weather provider is out of reach, and the failure reads like the
    not-found error. *)
Definition misleadingWorld : World :=
  mkWorld (Examples.environment [("WEATHER_API_KEY", "k1")])
    (fun req =>
       if String.eqb (Http.URL req) Examples.viaCepURL
       then Examples.answer Examples.foundText
       else Err (mkError "can not find zipcode")).

End Cases.

(** ** Proof tactics *)

(** Unfolds the effects down to functions on states. *)
Ltac unfold_effects :=
  unfold Do, Otelhttp.NewTransport, Otelhttp.Copy, Otelhttp.Close, Otelhttp.End,
    DefaultTransport, defer, Start, SpanEnd, SetAttributes, onTracer, mbind, M_bind, mret,
    M_ret in *.

(** Case analysis on the innermost scrutinee of the goal, repeated: one
    case per path through a handler or an adapter. *)
Ltac destruct_innermost :=
  match goal with
  | |- context [match ?x with _ => _ end] =>
      lazymatch x with
      | context [match _ with _ => _ end] => fail
      | _ => destruct x eqn:?
      end
  end.

Ltac destruct_matches := repeat (destruct_innermost; simpl).

(** One case per way a [main] can go. *)
Ltac main_cases :=
  unfold ServiceBMain.main, ServiceAMain.main, Tracer.InitTracerProvider, Tracer.shutdown;
  repeat (destruct_innermost; cbn [fst snd]);
  (eexists; split; [rewrite <- ?app_assoc; cbn [app]; reflexivity|]).

(** * Properties *)

(** ** The validator *)

Lemma Compile_cep_pattern : Regexp.Compile "^[0-9]{8}$" = Ok cepRegex.
Proof. reflexivity. Qed.

Lemma iter_flat_map_nil {A : Type} (f : A -> list A) (n : nat) :
  Nat.iter n (flat_map f) [] = [].
Proof. induction n as [|n IH]; simpl; [reflexivity | now rewrite IH]. Qed.

Lemma step_repeat_range (lo hi : ascii) (n : nat) :
  forall (b : bool) (s : string),
    Nat.iter n (flat_map (Regexp.step (Regexp.CharRange lo hi))) [(b, s)]
    = match stripRange lo hi n s with
      | Some rest => [(match n with 0 => b | S _ => false end, rest)]
      | None => []
      end.
Proof.
  induction n as [|n IH]; intros b s.
  - reflexivity.
  - rewrite Nat.iter_succ_r. simpl.
    destruct s as [|c rest]; simpl.
    + apply iter_flat_map_nil.
    + destruct (Regexp.inRange lo hi c); simpl.
      * rewrite IH. destruct (stripRange lo hi n rest); [|reflexivity].
        now destruct n.
      * apply iter_flat_map_nil.
Qed.

Lemma step_Concat (r1 r2 : Regexp.regex) (p : Regexp.position) :
  Regexp.step (Regexp.Concat r1 r2) p = flat_map (Regexp.step r2) (Regexp.step r1 p).
Proof. reflexivity. Qed.

Lemma step_Repeat (r : Regexp.regex) (n : nat) (p : Regexp.position) :
  Regexp.step (Regexp.Repeat r n) p = Nat.iter n (flat_map (Regexp.step r)) [p].
Proof. reflexivity. Qed.

Lemma search_anchored_later (r : Regexp.regex) (s : string) :
  Regexp.search (Regexp.Concat Regexp.BeginText r) false s = false.
Proof. induction s as [|c s IH]; simpl; [reflexivity | exact IH]. Qed.

Lemma search_cepRegex (s : string) :
  Regexp.search cepRegex true s
  = match stripRange "0" "9" 8 s with
    | Some EmptyString => true
    | _ => false
    end.
Proof.
  unfold cepRegex.
  assert (Hstep : Regexp.step
            (Regexp.Concat Regexp.BeginText
               (Regexp.Concat (Regexp.Repeat (Regexp.CharRange "0" "9") 8)
                  (Regexp.Concat Regexp.EndText Regexp.Empty))) (true, s)
          = match stripRange "0" "9" 8 s with
            | Some EmptyString => [(false, EmptyString)]
            | _ => []
            end).
  { rewrite step_Concat. change (Regexp.step Regexp.BeginText (true, s)) with [(true, s)].
    cbn [flat_map]. rewrite app_nil_r, step_Concat, step_Repeat, step_repeat_range.
    destruct (stripRange "0" "9" 8 s) as [[|c rest]|]; reflexivity. }
  destruct s as [|c s'].
  - reflexivity.
  - cbn [Regexp.search]. rewrite Hstep.
    destruct (stripRange "0" "9" 8 (String c s')) as [[|c' rest]|];
      try reflexivity; apply search_anchored_later.
Qed.

Lemma inRange_digit (c : ascii) : Regexp.inRange "0" "9" c = true <-> asciiDigit c.
Proof.
  unfold Regexp.inRange, asciiDigit.
  change (nat_of_ascii "0") with 48. change (nat_of_ascii "9") with 57.
  rewrite andb_true_iff, !Nat.leb_le. reflexivity.
Qed.

Lemma stripRange_all (n : nat) :
  forall s : string,
    stripRange "0" "9" n s = Some EmptyString
    <-> String.length s = n /\ Forall asciiDigit (list_ascii_of_string s).
Proof.
  induction n as [|n IH]; intros s; destruct s as [|c rest]; simpl.
  - split; [intros _; split; [reflexivity | constructor] | reflexivity].
  - split; [discriminate | intros [H _]; discriminate].
  - split; [discriminate | intros [H _]; discriminate].
  - destruct (Regexp.inRange "0" "9" c) eqn:Hc.
    + rewrite IH. apply inRange_digit in Hc. split.
      * intros [Hlen Hall]. split; [now rewrite Hlen | now constructor].
      * intros [Hlen Hall]. inversion Hall; subst. split; [now injection Hlen | assumption].
    + split; [discriminate |].
      intros [_ Hall]. inversion Hall as [|? ? Hd ?]; subst.
      apply inRange_digit in Hd. congruence.
Qed.

Lemma matched_iff_eight_digits (s : string) :
  fst (Regexp.MatchString "^[0-9]{8}$" s) = true <-> eightAsciiDigits s.
Proof.
  unfold Regexp.MatchString. rewrite Compile_cep_pattern. cbn [fst].
  rewrite search_cepRegex. unfold eightAsciiDigits. rewrite <- stripRange_all.
  destruct (stripRange "0" "9" 8 s) as [[|c rest]|]; split; congruence.
Qed.

(** C2. For every string, each copy of [isValidCEP] (the gateway's and the
    orchestrator's) answers true exactly when the string consists of eight
    ASCII digits and nothing else, and the two copies agree. *)
Theorem isValidCEP_iff_eight_ascii_digits (s : string) :
  (ServiceA.isValidCEP s = true <-> eightAsciiDigits s)
  /\ (ServiceB.isValidCEP s = true <-> eightAsciiDigits s)
  /\ ServiceA.isValidCEP s = ServiceB.isValidCEP s.
Proof.
  assert (HA : ServiceA.isValidCEP s = fst (Regexp.MatchString "^[0-9]{8}$" s)).
  { unfold ServiceA.isValidCEP. now destruct (Regexp.MatchString "^[0-9]{8}$" s). }
  assert (HB : ServiceB.isValidCEP s = fst (Regexp.MatchString "^[0-9]{8}$" s)).
  { unfold ServiceB.isValidCEP. now destruct (Regexp.MatchString "^[0-9]{8}$" s). }
  rewrite HA, HB.
  split; [apply matched_iff_eight_digits | split; [apply matched_iff_eight_digits | reflexivity]].
Qed.

(** ** Responses and effects *)

Lemma Error_fresh (text : string) (code : nat) :
  Http.Error Http.NewResponseWriter text code
  = Http.mkWriter textHeader (Some (code, textHeader)) (text +:+ newline) 0.
Proof. reflexivity. Qed.

Lemma errorResponse_fresh (text : string) (code : nat) :
  errorResponse code text (Http.Error Http.NewResponseWriter text code).
Proof. rewrite Error_fresh. repeat split. Qed.

Lemma fetchLocation_tracer (lib : Lib) (world : World) (ctx : Trace.Context) (cep : string)
    (st : state) :
  tracer (snd (ServiceB.fetchLocation lib world ctx cep st))
  = Trace.mkTracer (S (Trace.nextSpan (tracer st)))
      (Trace.events (tracer st)
       ++ [Trace.SpanStart (Trace.nextSpan (tracer st)) "fetchLocation-viacep"
             (Trace.currentSpan ctx);
           Trace.SpanEnd (Trace.nextSpan (tracer st))]).
Proof.
  unfold ServiceB.fetchLocation. unfold_effects. simpl.
  destruct_matches; unfold Trace.Finish, Trace.record; simpl;
    now rewrite <- app_assoc.
Qed.

Lemma fetchWeather_tracer (lib : Lib) (world : World) (ctx : Trace.Context) (city : string)
    (st : state) :
  tracer (snd (ServiceB.fetchWeather lib world ctx city st))
  = Trace.mkTracer (S (Trace.nextSpan (tracer st)))
      (Trace.events (tracer st)
       ++ [Trace.SpanStart (Trace.nextSpan (tracer st)) "fetchWeather-weatherapi"
             (Trace.currentSpan ctx);
           Trace.SpanEnd (Trace.nextSpan (tracer st))]).
Proof.
  unfold ServiceB.fetchWeather. unfold_effects. simpl.
  destruct_matches; unfold Trace.Finish, Trace.record; simpl;
    now rewrite <- app_assoc.
Qed.

(** The orchestrator's handler with its effects written out. *)
Lemma GetWeatherHandler_run (lib : Lib) (world : World) (w : Http.ResponseWriter)
    (r : Http.ServerRequest) (st : state) :
  ServiceB.GetWeatherHandler lib world w r st
  = if negb (ServiceB.isValidCEP (Http.URLParam r "cep"))
    then (Http.Error w "invalid zipcode" Http.StatusUnprocessableEntity, st)
    else
      match ServiceB.fetchLocation lib world (Http.Context r) (Http.URLParam r "cep")
              (attributed r st) with
      | (Err err, st1) =>
          (if String.eqb (Error err) "can not find zipcode"
           then Http.Error w "can not find zipcode" Http.StatusNotFound
           else Http.Error w (Error err) Http.StatusInternalServerError, st1)
      | (Ok location, st1) =>
          match ServiceB.fetchWeather lib world (Http.Context r)
                  (ServiceB.Localidade location) st1 with
          | (Err err, st2) => (Http.Error w (Error err) Http.StatusInternalServerError, st2)
          | (Ok weather, st2) =>
              let tempC := ServiceB.Current_TempC (ServiceB.Current weather) in
              let response :=
                ServiceB.mkFinalResponse (ServiceB.Localidade location) tempC
                  (tempC * 1.8 + 32)%float (tempC + 273)%float in
              let w1 :=
                Http.WriteHeader
                  (Http.editHeader
                     (fun h => Http.HeaderSet h "Content-Type" "application/json") w)
                  Http.StatusOK in
              (match ServiceB.Encode lib w1 response with
               | (w2, Some err) => Http.Error w2 (Error err) Http.StatusInternalServerError
               | (w2, None) => w2
               end, st2)
          end
      end.
Proof.
  unfold ServiceB.GetWeatherHandler, attributed.
  destruct (negb (ServiceB.isValidCEP (Http.URLParam r "cep"))); [reflexivity|].
  unfold mbind, M_bind, SetAttributes, onTracer. cbn [snd].
  destruct (ServiceB.fetchLocation _ _ _ _ _) as [[location|err] st1].
  - destruct (ServiceB.fetchWeather _ _ _ _ st1) as [[weather|err] st2]; [|reflexivity].
    cbv zeta. destruct (ServiceB.Encode _ _ _) as [w2 [err|]]; reflexivity.
  - destruct (String.eqb _ _); reflexivity.
Qed.

(** The address adapter with its effects written out: the span is opened
    and closed around whatever happens, and the call is issued as soon as
    the request is built. *)
Lemma fetchLocation_run (lib : Lib) (world : World) (ctx : Trace.Context) (cep : string)
    (st : state) :
  let n := Trace.nextSpan (tracer st) in
  let spans :=
    Trace.mkTracer (S n)
      (Trace.events (tracer st)
       ++ [Trace.SpanStart n "fetchLocation-viacep" (Trace.currentSpan ctx); Trace.SpanEnd n]) in
  ServiceB.fetchLocation lib world ctx cep st
  = match Http.NewRequestWithContext (urlError lib) (Trace.mkContext n) "GET"
            ("https://viacep.com.br/ws/" +:+ cep +:+ "/json/") with
    | Err err => (Err err, mkState spans (calls st))
    | Ok req =>
        (match RoundTrip world req with
         | Err err => Err (Http.clientError (urlText lib) req err)
         | Ok resp =>
             match Http.ReadAll (Http.Body resp) with
             | Err err => Err err
             | Ok body =>
                 match ServiceB.unmarshalViaCEPResponse lib body with
                 | Err err => Err err
                 | Ok v =>
                     if String.eqb (ServiceB.Erro v) "true"
                     then Err (Errorf "can not find zipcode")
                     else Ok v
                 end
             end
         end, mkState spans (calls st ++ [req]))
    end.
Proof.
  unfold ServiceB.fetchLocation. unfold_effects. simpl.
  destruct_matches; unfold Trace.Finish, Trace.record; simpl;
    now rewrite <- app_assoc.
Qed.

Lemma fetchWeather_run (lib : Lib) (world : World) (ctx : Trace.Context) (city : string)
    (st : state) :
  let n := Trace.nextSpan (tracer st) in
  let spans :=
    Trace.mkTracer (S n)
      (Trace.events (tracer st)
       ++ [Trace.SpanStart n "fetchWeather-weatherapi" (Trace.currentSpan ctx);
           Trace.SpanEnd n]) in
  ServiceB.fetchWeather lib world ctx city st
  = if String.eqb (Getenv world "WEATHER_API_KEY") EmptyString
    then (Err (Errorf "WEATHER_API_KEY não definida"), mkState spans (calls st))
    else
      match Http.NewRequestWithContext (urlError lib) (Trace.mkContext n) "GET"
              ("http://api.weatherapi.com/v1/current.json?key="
               +:+ Getenv world "WEATHER_API_KEY" +:+ "&q=" +:+ QueryEscape city
               +:+ "&aqi=no") with
      | Err err => (Err err, mkState spans (calls st))
      | Ok req =>
          (match RoundTrip world req with
           | Err err => Err (Http.clientError (urlText lib) req err)
           | Ok resp =>
               match Http.ReadAll (Http.Body resp) with
               | Err err => Err (Errorf_w "erro ao ler resposta da WeatherAPI: " err)
               | Ok body =>
                   match ServiceB.unmarshalWeatherAPIResponse lib body with
                   | Err err => Err (Errorf_w "erro ao decodificar JSON da WeatherAPI: " err)
                   | Ok v => Ok v
                   end
               end
           end, mkState spans (calls st ++ [req]))
      end.
Proof.
  unfold ServiceB.fetchWeather. unfold_effects. simpl.
  destruct_matches; unfold Trace.Finish, Trace.record; simpl;
    now rewrite <- app_assoc.
Qed.

(** ** The orchestrator *)

Lemma requests_issued (before : list Http.Request) (req req' : Http.Request) :
  before ++ [req'] = before ++ [req] -> req' = req.
Proof. intros H. apply app_inv_head in H. now injection H. Qed.

Lemma no_request_issued (before : list Http.Request) (req : Http.Request) :
  before <> before ++ [req].
Proof.
  intros H. apply (f_equal (@List.length _)) in H.
  rewrite List.length_app in H. simpl in H. lia.
Qed.








(** Why the read error's text matters: the handler knows the not-found
    outcome by its text alone, so a body that breaks off with an error of
    that very text would be answered 404. *)
Lemma read_error_told_by_text (lib : Lib) (world : World) (r : Http.ServerRequest)
    (st : state) (req : Http.Request) (resp : Http.Response) (e : error) :
  ServiceB.isValidCEP (Http.URLParam r "cep") = true ->
  calls (snd (ServiceB.fetchLocation lib world (Http.Context r) (Http.URLParam r "cep")
                (attributed r st)))
  = calls st ++ [req] ->
  RoundTrip world req = Ok resp ->
  Http.ReadAll (Http.Body resp) = Err e ->
  Error e = "can not find zipcode" ->
  errorResponse Http.StatusNotFound "can not find zipcode"
    (fst (ServiceB.GetWeatherHandler lib world Http.NewResponseWriter r st)).
Proof.
  intros Hvalid Hreq Hresp Hbody Htext.
  rewrite GetWeatherHandler_run, Hvalid. cbn [negb].
  rewrite fetchLocation_run in Hreq |- *. cbv zeta in Hreq |- *.
  destruct (Http.NewRequestWithContext _ _ _ _) as [req'|err];
    cbn [fst snd calls] in Hreq; unfold attributed, SetAttributes, onTracer in Hreq;
    cbn [snd calls] in Hreq.
  - apply requests_issued in Hreq. subst req'. rewrite Hresp, Hbody, Htext.
    cbn [fst]. apply errorResponse_fresh.
  - now apply no_request_issued in Hreq.
Qed.

Lemma Encode_fresh (lib : Lib) (v : ServiceB.FinalResponse) (payload : string) :
  ServiceB.Marshal lib v = Ok payload ->
  ServiceB.Encode lib
    (Http.WriteHeader
       (Http.editHeader (fun h => Http.HeaderSet h "Content-Type" "application/json")
          Http.NewResponseWriter) Http.StatusOK) v
  = (Http.mkWriter jsonHeader (Some (Http.StatusOK, jsonHeader)) (payload +:+ newline) 0, None).
Proof. intros H. unfold ServiceB.Encode. rewrite H. reflexivity. Qed.

(** The success path of the handler: both adapters answered. *)
Lemma GetWeatherHandler_success (lib : Lib) (world : World) (r : Http.ServerRequest)
    (st st1 st2 : state) (location : ServiceB.ViaCEPResponse)
    (weather : ServiceB.WeatherAPIResponse) (payload : string) :
  ServiceB.isValidCEP (Http.URLParam r "cep") = true ->
  ServiceB.fetchLocation lib world (Http.Context r) (Http.URLParam r "cep") (attributed r st)
  = (Ok location, st1) ->
  ServiceB.fetchWeather lib world (Http.Context r) (ServiceB.Localidade location) st1
  = (Ok weather, st2) ->
  ServiceB.Marshal lib
    (ServiceB.mkFinalResponse (ServiceB.Localidade location)
       (ServiceB.Current_TempC (ServiceB.Current weather))
       (ServiceB.Current_TempC (ServiceB.Current weather) * 1.8 + 32)%float
       (ServiceB.Current_TempC (ServiceB.Current weather) + 273)%float)
  = Ok payload ->
  ServiceB.GetWeatherHandler lib world Http.NewResponseWriter r st
  = (Http.mkWriter jsonHeader (Some (Http.StatusOK, jsonHeader)) (payload +:+ newline) 0, st2).
Proof.
  intros Hvalid Hloc Hweather Hpayload.
  rewrite GetWeatherHandler_run, Hvalid, Hloc, Hweather. cbn [negb]. cbv zeta.
  now rewrite (Encode_fresh lib _ payload Hpayload).
Qed.

Lemma marshalFloat64_finite (codec : Json.Codec) (f : float) :
  is_finite f = true -> Json.marshalFloat64 codec f = Ok (Json.formatFloat codec f).
Proof.
  unfold is_finite, Json.marshalFloat64. intros H.
  apply negb_true_iff in H. now rewrite H.
Qed.

(** A response whose three temperatures are finite marshals. *)
Lemma Marshal_finite (lib : Lib) (v : ServiceB.FinalResponse) :
  is_finite (ServiceB.TempC v) = true ->
  is_finite (ServiceB.TempF v) = true ->
  is_finite (ServiceB.TempK v) = true ->
  ServiceB.Marshal lib v
  = Ok (ServiceB.objectText (Json.quoteString (json lib) (ServiceB.City v))
          (Json.formatFloat (json lib) (ServiceB.TempC v))
          (Json.formatFloat (json lib) (ServiceB.TempF v))
          (Json.formatFloat (json lib) (ServiceB.TempK v))).
Proof.
  intros Hc Hf Hk. unfold ServiceB.Marshal.
  now rewrite !marshalFloat64_finite by assumption.
Qed.

(** C3. When the address adapter resolves a locality and the weather
    adapter returns the temperature C, the [FinalResponse] that the
    orchestrator encodes has that locality as its city, C as [temp_C],
    C * 1.8 + 32 as [temp_F] and C + 273 as [temp_K]: the body of the
    answer is its encoding, which exists whenever the three temperatures
    are finite. For C = 20 the three fields are exactly 20, 68 and 293. *)
Theorem final_response_conversion (lib : Lib) (world : World) (r : Http.ServerRequest)
    (st st1 st2 : state) (location : ServiceB.ViaCEPResponse)
    (weather : ServiceB.WeatherAPIResponse)
    (Hvalid : ServiceB.isValidCEP (Http.URLParam r "cep") = true)
    (Hlocation :
       ServiceB.fetchLocation lib world (Http.Context r) (Http.URLParam r "cep")
         (attributed r st) = (Ok location, st1))
    (Hweather :
       ServiceB.fetchWeather lib world (Http.Context r) (ServiceB.Localidade location) st1
       = (Ok weather, st2)) :
  let c := ServiceB.Current_TempC (ServiceB.Current weather) in
  let response :=
    ServiceB.mkFinalResponse (ServiceB.Localidade location) c
      (c * 1.8 + 32)%float (c + 273)%float in
  let answer := fst (ServiceB.GetWeatherHandler lib world Http.NewResponseWriter r st) in
  (forall payload, ServiceB.Marshal lib response = Ok payload -> successResponse payload answer)
  /\ (is_finite c = true ->
      is_finite (c * 1.8 + 32)%float = true ->
      is_finite (c + 273)%float = true ->
      exists payload, ServiceB.Marshal lib response = Ok payload)
  /\ (c = 20%float ->
      response
      = ServiceB.mkFinalResponse (ServiceB.Localidade location) 20%float 68%float 293%float
      /\ successResponse
           (ServiceB.objectText (Json.quoteString (json lib) (ServiceB.Localidade location))
              (Json.formatFloat (json lib) 20%float) (Json.formatFloat (json lib) 68%float)
              (Json.formatFloat (json lib) 293%float))
           answer).
Proof.
  intros c response answer.
  assert (Hgeneral : forall payload,
             ServiceB.Marshal lib response = Ok payload -> successResponse payload answer).
  { intros payload Hpayload. subst answer.
    rewrite (GetWeatherHandler_success lib world r st st1 st2 location weather payload
               Hvalid Hlocation Hweather Hpayload).
    repeat split. }
  split; [exact Hgeneral | split].
  - intros Hc Hf Hk. eexists. now apply Marshal_finite.
  - intros Hc.
    assert (Hresponse :
              response
              = ServiceB.mkFinalResponse (ServiceB.Localidade location)
                  20%float 68%float 293%float).
    { subst response. rewrite Hc. reflexivity. }
    split; [exact Hresponse|].
    apply Hgeneral. rewrite Hresponse. now apply Marshal_finite.
Qed.

(** São Paulo at 20 degrees: the answer is the line
    [{"city":"São Paulo","temp_C":20,"temp_F":68,"temp_K":293}]. *)
Lemma final_response_conversion_witness :
  successResponse Examples.payloadText
    (fst (ServiceB.GetWeatherHandler Examples.lib Examples.fairWorld Http.NewResponseWriter
            (Examples.toOrchestrator "01001000") Examples.start)).
Proof.
  pose (r := Examples.toOrchestrator "01001000").
  pose (st1 := snd (ServiceB.fetchLocation Examples.lib Examples.fairWorld (Http.Context r)
                      (Http.URLParam r "cep") (attributed r Examples.start))).
  pose (location := ServiceB.mkViaCEPResponse "São Paulo" EmptyString).
  pose (weather := ServiceB.mkWeatherAPIResponse (ServiceB.mkCurrentWeather 20%float)).
  pose (st2 := snd (ServiceB.fetchWeather Examples.lib Examples.fairWorld (Http.Context r)
                      (ServiceB.Localidade location) st1)).
  assert (Hvalid : ServiceB.isValidCEP (Http.URLParam r "cep") = true)
    by (vm_compute; reflexivity).
  assert (Hlocation :
            ServiceB.fetchLocation Examples.lib Examples.fairWorld (Http.Context r)
              (Http.URLParam r "cep") (attributed r Examples.start) = (Ok location, st1))
    by (vm_compute; reflexivity).
  assert (Hweather :
            ServiceB.fetchWeather Examples.lib Examples.fairWorld (Http.Context r)
              (ServiceB.Localidade location) st1 = (Ok weather, st2))
    by (vm_compute; reflexivity).
  destruct (final_response_conversion Examples.lib Examples.fairWorld r Examples.start
              st1 st2 location weather Hvalid Hlocation Hweather) as (_ & _ & H).
  destruct (H eq_refl) as [_ Hanswer]. exact Hanswer.
Defined.

Lemma closedOnce_one (root n parent : nat) (key value name : string) :
  Trace.closedOnce
    [Trace.SpanAttribute root key value; Trace.SpanStart n name parent; Trace.SpanEnd n]
  = true.
Proof. cbn -[Nat.eqb]. now rewrite !Nat.eqb_refl. Qed.

Lemma closedOnce_two (root n parent parent' : nat) (key value name name' : string) :
  Trace.closedOnce
    [Trace.SpanAttribute root key value; Trace.SpanStart n name parent; Trace.SpanEnd n;
     Trace.SpanStart (S n) name' parent'; Trace.SpanEnd (S n)]
  = true.
Proof.
  assert (H1 : Nat.eqb n (S n) = false) by (apply Nat.eqb_neq; lia).
  assert (H2 : Nat.eqb (S n) n = false) by (apply Nat.eqb_neq; lia).
  cbn -[Nat.eqb]. now rewrite !Nat.eqb_refl, H1, H2.
Qed.

(** The gateway's handler with its effects written out: once the request
    is built the call goes out under a client span, which is ended once,
    by the transport when the call fails, by the read that meets the end
    of the body, or by the closing of a body that broke off. *)
Lemma GetWeatherViaServiceB_run (lib : Lib) (world : World) (w : Http.ResponseWriter)
    (r : Http.ServerRequest) (st : state) :
  ServiceA.GetWeatherViaServiceB lib world w r st
  = match ServiceA.decodeCEPRequest lib (Http.RequestBody r) with
    | Err _ => (Http.Error w "invalid request body" Http.StatusBadRequest, st)
    | Ok req =>
        if negb (ServiceA.isValidCEP (ServiceA.CEP req))
        then (Http.Error w "invalid zipcode" Http.StatusUnprocessableEntity, st)
        else
          match Http.NewRequestWithContext (urlError lib) (Http.Context r) "GET"
                  ("http://service-b:8081/weather/" +:+ ServiceA.CEP req) with
          | Err _ =>
              (Http.Error w "erro ao criar requisição para o serviço B"
                 Http.StatusInternalServerError, st)
          | Ok httpReq =>
              (match RoundTrip world httpReq with
               | Err _ =>
                   Http.Error w "erro ao chamar o serviço B" Http.StatusInternalServerError
               | Ok resp =>
                   fst (Http.Copy
                          (Http.WriteHeader
                             (ServiceA.copyHeader (map_to_list (Http.ResponseHeader resp)) w)
                             (Http.StatusCode resp))
                          (Http.Body resp))
               end,
               mkState
                 (Trace.mkTracer (S (Trace.nextSpan (tracer st)))
                    (Trace.events (tracer st)
                     ++ [Trace.SpanStart (Trace.nextSpan (tracer st)) (clientSpanName lib "GET")
                           (Trace.currentSpan (Http.Context r));
                         Trace.SpanEnd (Trace.nextSpan (tracer st))]))
                 (calls st ++ [httpReq]))
          end
    end.
Proof.
  unfold ServiceA.GetWeatherViaServiceB, Http.NewRequestWithContext.
  destruct (ServiceA.decodeCEPRequest lib (Http.RequestBody r)) as [req|e]; [|reflexivity].
  destruct (negb (ServiceA.isValidCEP (ServiceA.CEP req))); [reflexivity|].
  destruct (urlError lib _); [reflexivity|].
  unfold_effects. unfold Http.Copy, Trace.Start, Trace.End, Trace.Finish, Trace.record.
  cbn [Http.Method Http.Ctx fst snd tracer calls Trace.nextSpan Trace.events].
  destruct (RoundTrip world _) as [resp|e].
  - destruct (Http.cut (Http.Body resp)) as [[n e]|];
      cbn [fmap option_fmap option_map snd fst Trace.ended Trace.spanId tracer calls
             Trace.nextSpan Trace.events];
      rewrite <- app_assoc; reflexivity.
  - cbn [Trace.ended Trace.spanId fst snd tracer calls Trace.nextSpan Trace.events].
    rewrite <- app_assoc. reflexivity.
Qed.

(** C6. Each adapter opens one span and closes it once, whatever it
    returns; so every span opened while the orchestrator handles a request
    is closed exactly once, whichever way the handler leaves. The gateway
    opens a span only for its call to the orchestrator, the client span
    of its transport, and that span too is closed exactly once, whether
    the call fails, the answer is relayed whole, or its body breaks
    off. *)
Theorem spans_closed_exactly_once (lib : Lib) (world : World) :
  (forall ctx cep st,
      let n := Trace.nextSpan (tracer st) in
      Trace.events (tracer (snd (ServiceB.fetchLocation lib world ctx cep st)))
      = Trace.events (tracer st)
        ++ [Trace.SpanStart n "fetchLocation-viacep" (Trace.currentSpan ctx); Trace.SpanEnd n])
  /\ (forall ctx city st,
        let n := Trace.nextSpan (tracer st) in
        Trace.events (tracer (snd (ServiceB.fetchWeather lib world ctx city st)))
        = Trace.events (tracer st)
          ++ [Trace.SpanStart n "fetchWeather-weatherapi" (Trace.currentSpan ctx);
              Trace.SpanEnd n])
  /\ (forall w r st,
        exists new,
          Trace.events (tracer (snd (ServiceB.GetWeatherHandler lib world w r st)))
          = Trace.events (tracer st) ++ new
          /\ Trace.closedOnce new = true)
  /\ (forall w r st,
        let n := Trace.nextSpan (tracer st) in
        let st' := snd (ServiceA.GetWeatherViaServiceB lib world w r st) in
        exists new,
          Trace.events (tracer st') = Trace.events (tracer st) ++ new
          /\ Trace.closedOnce new = true
          /\ (new = [] /\ calls st' = calls st
              \/ new = [Trace.SpanStart n (clientSpanName lib "GET")
                          (Trace.currentSpan (Http.Context r));
                        Trace.SpanEnd n]
                 /\ exists httpReq, calls st' = calls st ++ [httpReq])).
Proof.
  split; [|split; [|split]].
  - intros ctx cep st n. now rewrite fetchLocation_tracer.
  - intros ctx city st n. now rewrite fetchWeather_tracer.
  - intros w r st. rewrite GetWeatherHandler_run.
    destruct (negb (ServiceB.isValidCEP (Http.URLParam r "cep"))).
    { exists []. split; [now rewrite app_nil_r | reflexivity]. }
    pose proof (fetchLocation_tracer lib world (Http.Context r) (Http.URLParam r "cep")
                  (attributed r st)) as Hl.
    destruct (ServiceB.fetchLocation _ _ _ _ _) as [[location|err] st1]; cbn [snd] in Hl.
    + pose proof (fetchWeather_tracer lib world (Http.Context r)
                    (ServiceB.Localidade location) st1) as Hw.
      rewrite Hl in Hw. cbn [Trace.nextSpan Trace.events] in Hw.
      eexists. split.
      * destruct (ServiceB.fetchWeather _ _ _ _ _) as [[weather|err] st2];
          cbn [snd] in Hw |- *; rewrite Hw; cbn [Trace.events];
          unfold attributed, SetAttributes, onTracer, Trace.SetAttributes, Trace.record;
          cbn [snd tracer Trace.events Trace.nextSpan];
          rewrite <- !app_assoc; reflexivity.
      * apply closedOnce_two.
    + eexists. split.
      * cbn [snd]. rewrite Hl. cbn [Trace.events].
        unfold attributed, SetAttributes, onTracer, Trace.SetAttributes, Trace.record.
        cbn [snd tracer Trace.events Trace.nextSpan].
        rewrite <- !app_assoc. reflexivity.
      * apply closedOnce_one.
  - intros w r st n st'. subst st' n. rewrite GetWeatherViaServiceB_run.
    assert (Hnone : forall answer : Http.ResponseWriter,
               exists new,
                 Trace.events (tracer (snd (answer, st))) = Trace.events (tracer st) ++ new
                 /\ Trace.closedOnce new = true
                 /\ (new = [] /\ calls (snd (answer, st)) = calls st
                     \/ new = [Trace.SpanStart (Trace.nextSpan (tracer st))
                                 (clientSpanName lib "GET")
                                 (Trace.currentSpan (Http.Context r));
                               Trace.SpanEnd (Trace.nextSpan (tracer st))]
                        /\ exists httpReq, calls (snd (answer, st)) = calls st ++ [httpReq])).
    { intros answer. exists []. cbn [snd].
      split; [now rewrite app_nil_r | split; [reflexivity | now left]]. }
    destruct (ServiceA.decodeCEPRequest lib (Http.RequestBody r)) as [req|e]; [|apply Hnone].
    destruct (negb (ServiceA.isValidCEP (ServiceA.CEP req))); [apply Hnone|].
    destruct (Http.NewRequestWithContext _ _ _ _) as [httpReq|e]; [|apply Hnone].
    cbn [snd tracer calls Trace.events]. eexists. split; [reflexivity|]. split.
    + cbn -[Nat.eqb]. now rewrite !Nat.eqb_refl.
    + right. split; [reflexivity | now exists httpReq].
Qed.

(** C7. Without a weather-provider credential in the environment,
    [fetchWeather] returns an error and issues no call; the orchestrator
    answers a request that is valid and whose locality resolves with 500. *)
Theorem missing_credential_500 (lib : Lib) (world : World)
    (Hkey : Getenv world "WEATHER_API_KEY" = EmptyString) :
  (forall ctx city st,
      fst (ServiceB.fetchWeather lib world ctx city st)
      = Err (Errorf "WEATHER_API_KEY não definida")
      /\ calls (snd (ServiceB.fetchWeather lib world ctx city st)) = calls st)
  /\ (forall r st location st1,
        ServiceB.isValidCEP (Http.URLParam r "cep") = true ->
        ServiceB.fetchLocation lib world (Http.Context r) (Http.URLParam r "cep")
          (attributed r st) = (Ok location, st1) ->
        errorResponse Http.StatusInternalServerError "WEATHER_API_KEY não definida"
          (fst (ServiceB.GetWeatherHandler lib world Http.NewResponseWriter r st))
        /\ calls (snd (ServiceB.GetWeatherHandler lib world Http.NewResponseWriter r st))
           = calls st1).
Proof.
  assert (Hfetch : forall ctx city st,
             fst (ServiceB.fetchWeather lib world ctx city st)
             = Err (Errorf "WEATHER_API_KEY não definida")
             /\ calls (snd (ServiceB.fetchWeather lib world ctx city st)) = calls st).
  { intros ctx city st. rewrite fetchWeather_run, Hkey. cbv zeta.
    cbn [String.eqb fst snd calls]. split; reflexivity. }
  split; [exact Hfetch|].
  intros r st location st1 Hvalid Hlocation.
  rewrite GetWeatherHandler_run, Hvalid, Hlocation. cbn [negb].
  destruct (Hfetch (Http.Context r) (ServiceB.Localidade location) st1) as [Herr Hcalls].
  destruct (ServiceB.fetchWeather _ _ _ _ _) as [[weather|err] st2];
    cbn [fst snd] in *; [discriminate|].
  injection Herr as ->. split; [apply errorResponse_fresh | exact Hcalls].
Qed.

(** No key in the environment: the only call is the one to the address
    provider, and the answer is 500. *)
Lemma missing_credential_500_witness :
  let run :=
    ServiceB.GetWeatherHandler Examples.lib Examples.noKeyWorld Http.NewResponseWriter
      (Examples.toOrchestrator "01001000") Examples.start in
  errorResponse Http.StatusInternalServerError "WEATHER_API_KEY não definida" (fst run)
  /\ map Http.URL (calls (snd run)) = [Examples.viaCepURL].
Proof.
  pose (r := Examples.toOrchestrator "01001000").
  pose (st1 := snd (ServiceB.fetchLocation Examples.lib Examples.noKeyWorld (Http.Context r)
                      (Http.URLParam r "cep") (attributed r Examples.start))).
  destruct (missing_credential_500 Examples.lib Examples.noKeyWorld eq_refl) as [_ H].
  destruct (H r Examples.start (ServiceB.mkViaCEPResponse "São Paulo" EmptyString) st1)
    as [Hanswer Hcalls]; [vm_compute; reflexivity | vm_compute; reflexivity |].
  split; [exact Hanswer|].
  cbv zeta. fold r. rewrite Hcalls. vm_compute. reflexivity.
Defined.

(** C9. The orchestrator's answer is a function of the postal code and of
    what the adapters return: two runs on the same postal code (in two
    worlds, under two tracers, with two contexts) in which the adapters
    return the same locality and the same temperature give the same
    status, header block and body. *)
Theorem orchestrator_answer_determined (lib : Lib) (world world' : World)
    (r r' : Http.ServerRequest) (st st' st1 st1' st2 st2' : state)
    (location location' : ServiceB.ViaCEPResponse)
    (weather weather' : ServiceB.WeatherAPIResponse)
    (Hcep : Http.URLParam r "cep" = Http.URLParam r' "cep")
    (Hlocation :
       ServiceB.fetchLocation lib world (Http.Context r) (Http.URLParam r "cep")
         (attributed r st) = (Ok location, st1))
    (Hlocation' :
       ServiceB.fetchLocation lib world' (Http.Context r') (Http.URLParam r' "cep")
         (attributed r' st') = (Ok location', st1'))
    (Hcity : ServiceB.Localidade location = ServiceB.Localidade location')
    (Hweather :
       ServiceB.fetchWeather lib world (Http.Context r) (ServiceB.Localidade location) st1
       = (Ok weather, st2))
    (Hweather' :
       ServiceB.fetchWeather lib world' (Http.Context r') (ServiceB.Localidade location') st1'
       = (Ok weather', st2'))
    (Htemp :
       ServiceB.Current_TempC (ServiceB.Current weather)
       = ServiceB.Current_TempC (ServiceB.Current weather')) :
  fst (ServiceB.GetWeatherHandler lib world Http.NewResponseWriter r st)
  = fst (ServiceB.GetWeatherHandler lib world' Http.NewResponseWriter r' st').
Proof.
  assert (Hvalid : ServiceB.isValidCEP (Http.URLParam r' "cep")
                   = ServiceB.isValidCEP (Http.URLParam r "cep")) by now rewrite Hcep.
  rewrite !GetWeatherHandler_run, Hvalid.
  destruct (negb (ServiceB.isValidCEP (Http.URLParam r "cep"))); [reflexivity|].
  rewrite Hlocation, Hlocation', Hweather, Hweather'. cbv zeta. cbn [fst].
  now rewrite Hcity, Htemp.
Qed.

(** Two worlds that differ in the key, in the providers' status and
    headers and in the error flag, and two requests with different
    contexts and tracers: the answers are the same. *)
Lemma orchestrator_answer_determined_witness :
  fst (ServiceB.GetWeatherHandler Examples.lib Examples.fairWorld Http.NewResponseWriter
         (Examples.toOrchestrator "01001000") Examples.start)
  = fst (ServiceB.GetWeatherHandler Examples.lib Examples.otherWorld Http.NewResponseWriter
           (Http.mkServerRequest "ignored" {[ "cep" := "01001000" ]} (Trace.mkContext 7))
           (mkState (Trace.mkTracer 40 [Trace.SpanEnd 3]) [])).
Proof.
  pose (r := Examples.toOrchestrator "01001000").
  pose (r' := Http.mkServerRequest "ignored" {[ "cep" := "01001000" ]} (Trace.mkContext 7)).
  pose (st' := mkState (Trace.mkTracer 40 [Trace.SpanEnd 3]) []).
  pose (location := ServiceB.mkViaCEPResponse "São Paulo" EmptyString).
  pose (location' := ServiceB.mkViaCEPResponse "São Paulo" "false").
  pose (weather := ServiceB.mkWeatherAPIResponse (ServiceB.mkCurrentWeather 20%float)).
  pose (st1 := snd (ServiceB.fetchLocation Examples.lib Examples.fairWorld (Http.Context r)
                      (Http.URLParam r "cep") (attributed r Examples.start))).
  pose (st1' := snd (ServiceB.fetchLocation Examples.lib Examples.otherWorld (Http.Context r')
                       (Http.URLParam r' "cep") (attributed r' st'))).
  pose (st2 := snd (ServiceB.fetchWeather Examples.lib Examples.fairWorld (Http.Context r)
                      (ServiceB.Localidade location) st1)).
  pose (st2' := snd (ServiceB.fetchWeather Examples.lib Examples.otherWorld (Http.Context r')
                       (ServiceB.Localidade location') st1')).
  apply (orchestrator_answer_determined Examples.lib Examples.fairWorld Examples.otherWorld
           r r' Examples.start st' st1 st1' st2 st2' location location' weather weather);
    vm_compute; reflexivity.
Defined.

(** ** The gateway *)

(** The inner loop: the values of one key, added in order. *)
Lemma add_values (key : string) (vs : list string) :
  Http.CanonicalMIMEHeaderKey key = key ->
  forall w : Http.ResponseWriter,
    let w' :=
      fold_left (fun w value => Http.editHeader (fun h => Http.HeaderAdd h key value) w) vs w in
    Http.committed w' = Http.committed w
    /\ Http.written w' = Http.written w
    /\ Http.superfluous w' = Http.superfluous w
    /\ forall k,
         Http.values (Http.handlerHeader w') k
         = Http.values (Http.handlerHeader w) k ++ (if String.eqb key k then vs else []).
Proof.
  intros Hkey. induction vs as [|v vs IH]; intros w; cbn [fold_left].
  - repeat split. intros k. destruct (String.eqb key k); now rewrite app_nil_r.
  - destruct (IH (Http.editHeader (fun h => Http.HeaderAdd h key v) w))
      as (Hc & Hb & Hs & Hv).
    cbv zeta. rewrite Hc, Hb, Hs. repeat split. intros k. rewrite Hv.
    unfold Http.editHeader, Http.HeaderAdd, Http.values. cbn [Http.handlerHeader].
    rewrite Hkey. destruct (String.eqb_spec key k) as [->|Hne].
    + rewrite lookup_insert_eq. cbn [default id]. now rewrite <- app_assoc.
    + rewrite lookup_insert_ne by exact Hne. now rewrite !app_nil_r.
Qed.

Lemma copyHeader_cons (entry : string * list string) (entries : list (string * list string))
    (w : Http.ResponseWriter) :
  ServiceA.copyHeader (entry :: entries) w
  = ServiceA.copyHeader entries
      (fold_left
         (fun w value => Http.editHeader (fun h => Http.HeaderAdd h (fst entry) value) w)
         (snd entry) w).
Proof. reflexivity. Qed.

(** The values a list of entries holds for a key. *)
Lemma copyHeader_entries (entries : list (string * list string)) :
  Forall (fun entry => Http.CanonicalMIMEHeaderKey (fst entry) = fst entry) entries ->
  forall w : Http.ResponseWriter,
    Http.committed (ServiceA.copyHeader entries w) = Http.committed w
    /\ Http.written (ServiceA.copyHeader entries w) = Http.written w
    /\ Http.superfluous (ServiceA.copyHeader entries w) = Http.superfluous w
    /\ forall k,
         Http.values (Http.handlerHeader (ServiceA.copyHeader entries w)) k
         = Http.values (Http.handlerHeader w) k
           ++ concat (map snd (List.filter (fun entry => String.eqb (fst entry) k) entries)).
Proof.
  induction 1 as [|entry entries Hkey _ IH]; intros w.
  - repeat split. intros k. cbn. now rewrite app_nil_r.
  - rewrite copyHeader_cons.
    destruct (add_values (fst entry) (snd entry) Hkey w) as (Hc & Hb & Hs & Hv).
    destruct (IH (fold_left
                    (fun w value =>
                       Http.editHeader (fun h => Http.HeaderAdd h (fst entry) value) w)
                    (snd entry) w)) as (Hc' & Hb' & Hs' & Hv').
    rewrite Hc', Hb', Hs', Hc, Hb, Hs. repeat split. intros k.
    rewrite Hv', Hv. cbn [List.filter]. rewrite <- app_assoc. f_equal.
    destruct (String.eqb (fst entry) k); reflexivity.
Qed.

(** In a list without repeated keys, a key holds the values of its entry. *)
Lemma values_of_entries (entries : list (string * list string)) (k : string) :
  NoDup (map fst entries) ->
  concat (map snd (List.filter (fun entry => String.eqb (fst entry) k) entries))
  = default [] (snd <$> List.find (fun entry => String.eqb (fst entry) k) entries).
Proof.
  induction entries as [|[key vs] entries IH]; intros Hnodup; [reflexivity|].
  apply NoDup_cons in Hnodup as [Hfresh Hnodup]. cbn [List.filter List.find fst map] in *.
  destruct (String.eqb_spec key k) as [->|Hne].
  - cbn. rewrite IH by exact Hnodup.
    assert (Hnone : List.find (fun entry => String.eqb (fst entry) k) entries = None).
    { destruct (List.find _ entries) as [[k' vs']|] eqn:Hfind; [|reflexivity].
      apply List.find_some in Hfind as [Hin Hk]. cbn in Hk.
      apply String.eqb_eq in Hk. subst k'. exfalso. apply Hfresh.
      apply list_elem_of_In. apply (List.in_map fst) in Hin. exact Hin. }
    rewrite Hnone. cbn. now rewrite app_nil_r.
  - now apply IH.
Qed.

Lemma find_entry (m : Http.Header) (entries : list (string * list string)) (k : string) :
  entries ≡ₚ map_to_list m ->
  snd <$> List.find (fun entry => String.eqb (fst entry) k) entries = m !! k.
Proof.
  intros Hperm.
  destruct (List.find _ entries) as [[k' vs]|] eqn:Hfind.
  - apply List.find_some in Hfind as [Hin Hk]. cbn in Hk. apply String.eqb_eq in Hk.
    subst k'. apply list_elem_of_In in Hin. rewrite Hperm in Hin.
    apply elem_of_map_to_list in Hin. now rewrite Hin.
  - destruct (m !! k) as [vs|] eqn:Hm; [|reflexivity].
    apply elem_of_map_to_list in Hm. rewrite <- Hperm in Hm. apply list_elem_of_In in Hm.
    apply (List.find_none _ _ Hfind) in Hm. cbn in Hm. now rewrite String.eqb_refl in Hm.
Qed.

(** Canonical form is a fixed point: a byte put in its case stays a token
    byte and stays in its case. *)
Lemma recaseByte_fixed (upper : bool) (c : ascii) :
  Http.recaseByte upper (Http.recaseByte upper c) = Http.recaseByte upper c
  /\ implb (Http.validHeaderFieldByte c)
        (Http.validHeaderFieldByte (Http.recaseByte upper c)) = true.
Proof.
  destruct upper; destruct c as [[] [] [] [] [] [] [] []]; split; reflexivity.
Qed.

Lemma recase_fixed (s : string) :
  forall upper,
    Http.recase upper (Http.recase upper s) = Http.recase upper s
    /\ (forallb Http.validHeaderFieldByte (list_ascii_of_string s) = true ->
        forallb Http.validHeaderFieldByte (list_ascii_of_string (Http.recase upper s)) = true).
Proof.
  induction s as [|c s IH]; intros upper; [split; [reflexivity | trivial]|].
  destruct (recaseByte_fixed upper c) as [Hfixed Hvalid].
  cbn [Http.recase list_ascii_of_string forallb]. cbv zeta. rewrite Hfixed.
  destruct (IH (Ascii.eqb (Http.recaseByte upper c) "-")) as [IHfixed IHvalid].
  split.
  - now rewrite IHfixed.
  - intros H. apply andb_true_iff in H as [Hc Hs]. rewrite Hc in Hvalid.
    cbn [implb] in Hvalid. rewrite Hvalid. cbn [andb]. now apply IHvalid.
Qed.

Lemma CanonicalMIMEHeaderKey_fixed (s : string) :
  Http.CanonicalMIMEHeaderKey (Http.CanonicalMIMEHeaderKey s) = Http.CanonicalMIMEHeaderKey s.
Proof.
  unfold Http.CanonicalMIMEHeaderKey.
  destruct (forallb Http.validHeaderFieldByte (list_ascii_of_string s)) eqn:Hvalid.
  - destruct (recase_fixed s true) as [Hfixed Hkeeps].
    now rewrite (Hkeeps Hvalid), Hfixed.
  - now rewrite Hvalid.
Qed.

(** The keys of a header map read off the wire are canonical. *)
Lemma readHeader_canonical (lines : list (string * string)) :
  canonicalKeys (Http.readHeader lines).
Proof.
  unfold Http.readHeader, canonicalKeys.
  assert (Hfold : forall h : Http.Header,
             map_Forall (fun key _ => Http.CanonicalMIMEHeaderKey key = key) h ->
             map_Forall (fun key _ => Http.CanonicalMIMEHeaderKey key = key)
               (fold_left (fun h line => Http.HeaderAdd h (fst line) (snd line)) lines h)).
  { induction lines as [|line lines IH]; intros h Hh; [exact Hh|].
    cbn [fold_left]. apply IH. unfold Http.HeaderAdd.
    apply map_Forall_insert_2; [apply CanonicalMIMEHeaderKey_fixed | exact Hh]. }
  apply Hfold. apply map_Forall_empty.
Qed.

(** The loops copy the header map, in whatever order its entries come. *)
Lemma copyHeader_any_order (m : Http.Header) (entries : list (string * list string))
    (w : Http.ResponseWriter) :
  entries ≡ₚ map_to_list m ->
  canonicalKeys m ->
  Http.committed (ServiceA.copyHeader entries w) = Http.committed w
  /\ Http.written (ServiceA.copyHeader entries w) = Http.written w
  /\ Http.superfluous (ServiceA.copyHeader entries w) = Http.superfluous w
  /\ forall k,
       Http.values (Http.handlerHeader (ServiceA.copyHeader entries w)) k
       = Http.values (Http.handlerHeader w) k ++ Http.values m k.
Proof.
  intros Hperm Hcanon.
  assert (Hkeys : Forall (fun entry => Http.CanonicalMIMEHeaderKey (fst entry) = fst entry)
                    entries).
  { apply List.Forall_forall. intros [key vs] Hin.
    apply list_elem_of_In in Hin. rewrite Hperm in Hin.
    apply elem_of_map_to_list in Hin. exact (Hcanon key vs Hin). }
  destruct (copyHeader_entries entries Hkeys w) as (Hc & Hb & Hs & Hv).
  repeat split; try assumption. intros k. rewrite Hv. f_equal.
  rewrite values_of_entries.
  - unfold Http.values. now rewrite (find_entry m entries k Hperm).
  - rewrite Hperm. apply NoDup_fst_map_to_list.
Qed.

(** C4. A request whose postal code fails the validation is answered 422
    with the line [invalid zipcode] by the gateway and by the orchestrator
    alike, and neither has issued a call, opened a span or changed its
    state in any way by then. *)
Theorem invalid_zipcode_422 (lib : Lib) (world : World) (r : Http.ServerRequest) (st : state) :
  (forall req,
      ServiceA.decodeCEPRequest lib (Http.RequestBody r) = Ok req ->
      ServiceA.isValidCEP (ServiceA.CEP req) = false ->
      errorResponse Http.StatusUnprocessableEntity "invalid zipcode"
        (fst (ServiceA.GetWeatherViaServiceB lib world Http.NewResponseWriter r st))
      /\ snd (ServiceA.GetWeatherViaServiceB lib world Http.NewResponseWriter r st) = st)
  /\ (ServiceB.isValidCEP (Http.URLParam r "cep") = false ->
      errorResponse Http.StatusUnprocessableEntity "invalid zipcode"
        (fst (ServiceB.GetWeatherHandler lib world Http.NewResponseWriter r st))
      /\ snd (ServiceB.GetWeatherHandler lib world Http.NewResponseWriter r st) = st).
Proof.
  split.
  - intros req Hreq Hinvalid. rewrite GetWeatherViaServiceB_run, Hreq, Hinvalid.
    cbn [negb fst snd]. split; [apply errorResponse_fresh | reflexivity].
  - intros Hinvalid. rewrite GetWeatherHandler_run, Hinvalid.
    cbn [negb fst snd]. split; [apply errorResponse_fresh | reflexivity].
Qed.

(** The postal code [12345], in a body sent to the gateway and in a path
    sent to the orchestrator. *)
Lemma invalid_zipcode_422_witness :
  (errorResponse Http.StatusUnprocessableEntity "invalid zipcode"
     (fst (ServiceA.GetWeatherViaServiceB Examples.lib
             (Examples.gatewayWorld Examples.notFoundAnswer) Http.NewResponseWriter
             (Examples.toGateway Examples.shortCepText) Examples.start))
   /\ calls (snd (ServiceA.GetWeatherViaServiceB Examples.lib
                    (Examples.gatewayWorld Examples.notFoundAnswer) Http.NewResponseWriter
                    (Examples.toGateway Examples.shortCepText) Examples.start)) = [])
  /\ errorResponse Http.StatusUnprocessableEntity "invalid zipcode"
       (fst (ServiceB.GetWeatherHandler Examples.lib Examples.fairWorld
               Http.NewResponseWriter (Examples.toOrchestrator "12345") Examples.start)).
Proof.
  split.
  - destruct (invalid_zipcode_422 Examples.lib (Examples.gatewayWorld Examples.notFoundAnswer)
                (Examples.toGateway Examples.shortCepText) Examples.start) as [H _].
    destruct (H (ServiceA.mkCEPRequest "12345")) as [Hanswer Hstate];
      [vm_compute; reflexivity | vm_compute; reflexivity |].
    split; [exact Hanswer | now rewrite Hstate].
  - destruct (invalid_zipcode_422 Examples.lib Examples.fairWorld
                (Examples.toOrchestrator "12345") Examples.start) as [_ H].
    apply H. vm_compute. reflexivity.
Defined.

(** C5, amended. When the gateway's call to the orchestrator succeeds,
    that is, when the client returns a response, the gateway answers with
    the orchestrator's status code, with all of its header values under
    every key, and with the bytes of its body that arrive: the body byte
    for byte when it arrives whole, its first [n] bytes when the transfer
    breaks off after [n]; nothing else is written, and no second status
    is attempted. *)
Theorem gateway_relays_response (lib : Lib) (world : World) (r : Http.ServerRequest)
    (st : state) (req : ServiceA.CEPRequest) (httpReq : Http.Request) (resp : Http.Response)
    (Hdecode : ServiceA.decodeCEPRequest lib (Http.RequestBody r) = Ok req)
    (Hvalid : ServiceA.isValidCEP (ServiceA.CEP req) = true)
    (Hbuilt :
       Http.NewRequestWithContext (urlError lib) (Http.Context r) "GET"
         ("http://service-b:8081/weather/" +:+ ServiceA.CEP req) = Ok httpReq)
    (Hcall : RoundTrip world httpReq = Ok resp) :
  let answer := fst (ServiceA.GetWeatherViaServiceB lib world Http.NewResponseWriter r st) in
  exists sent,
    Http.committed answer = Some (Http.StatusCode resp, sent)
    /\ (forall key, Http.values sent key = Http.values (Http.ResponseHeader resp) key)
    /\ Http.written answer = Http.received (Http.Body resp)
    /\ (Http.cut (Http.Body resp) = None ->
        Http.written answer = Http.content (Http.Body resp))
    /\ (forall n e,
          Http.cut (Http.Body resp) = Some (n, e) ->
          Http.written answer = String.substring 0 n (Http.content (Http.Body resp)))
    /\ Http.superfluous answer = 0.
Proof.
  intros answer. subst answer.
  rewrite GetWeatherViaServiceB_run, Hdecode, Hvalid, Hbuilt, Hcall. cbn [negb fst].
  destruct (copyHeader_any_order (Http.ResponseHeader resp)
              (map_to_list (Http.ResponseHeader resp)) Http.NewResponseWriter
              (reflexivity _) (readHeader_canonical (Http.HeaderLines resp)))
    as (Hc & Hb & Hs & Hv).
  set (w := ServiceA.copyHeader (map_to_list (Http.ResponseHeader resp))
              Http.NewResponseWriter) in *.
  cbn [Http.NewResponseWriter Http.committed Http.written Http.superfluous
         Http.handlerHeader] in Hc, Hb, Hs, Hv.
  exists (Http.handlerHeader w).
  assert (Hwritten :
            Http.written
              (fst (Http.Copy (Http.WriteHeader w (Http.StatusCode resp)) (Http.Body resp)))
            = Http.received (Http.Body resp)).
  { unfold Http.Copy, Http.Write, Http.WriteHeader. rewrite Hc. cbn [fst].
    destruct (Http.received (Http.Body resp));
      cbn [Http.committed Http.written]; now rewrite Hb. }
  split; [|split; [|split; [|split; [|split]]]].
  - unfold Http.Copy, Http.Write, Http.WriteHeader. rewrite Hc. cbn [fst].
    now destruct (Http.received (Http.Body resp)).
  - intros key. now rewrite Hv.
  - exact Hwritten.
  - intros Hwhole. rewrite Hwritten. unfold Http.received. now rewrite Hwhole.
  - intros n e Hcut. rewrite Hwritten. unfold Http.received. now rewrite Hcut.
  - unfold Http.Copy, Http.Write, Http.WriteHeader. rewrite Hc. cbn [fst].
    destruct (Http.received (Http.Body resp)); cbn [Http.committed Http.superfluous];
      exact Hs.
Qed.

(** The orchestrator's 404, with its three headers (in lower case on the
    wire, canonical in the client's map), comes back from the gateway as
    it is. *)
Lemma gateway_relays_response_witness :
  let answer :=
    fst (ServiceA.GetWeatherViaServiceB Examples.lib
           (Examples.gatewayWorld Examples.notFoundAnswer) Http.NewResponseWriter
           (Examples.toGateway Examples.goodCepText) Examples.start) in
  exists sent,
    Http.committed answer = Some (404, sent)
    /\ (forall key,
          Http.values sent key
          = Http.values (Http.ResponseHeader Examples.notFoundAnswer) key)
    /\ Http.written answer = "can not find zipcode" +:+ newline
    /\ Http.superfluous answer = 0.
Proof.
  assert (Hdecode :
            ServiceA.decodeCEPRequest Examples.lib
              (Http.RequestBody (Examples.toGateway Examples.goodCepText))
            = Ok (ServiceA.mkCEPRequest "01001000")) by (vm_compute; reflexivity).
  assert (Hvalid : ServiceA.isValidCEP "01001000" = true) by (vm_compute; reflexivity).
  destruct (gateway_relays_response Examples.lib (Examples.gatewayWorld Examples.notFoundAnswer)
              (Examples.toGateway Examples.goodCepText) Examples.start
              (ServiceA.mkCEPRequest "01001000")
              (Http.mkRequest "GET" Examples.serviceBURL (Trace.mkContext 0))
              Examples.notFoundAnswer Hdecode Hvalid eq_refl eq_refl)
    as (sent & Hc & Hv & _ & Hwhole & _ & Hs).
  exists sent. split; [exact Hc | split; [exact Hv | split; [|exact Hs]]].
  exact (Hwhole eq_refl).
Defined.

(** C5 as stated fails: the client returns the orchestrator's response,
    status 200 and a body of 59 bytes, the transfer of the body breaks
    off after 7 bytes, and the gateway's answer carries those 7 bytes. *)
Lemma broken_body_not_identical :
  let world := Examples.gatewayWorld Examples.brokenAnswer in
  let r := Examples.toGateway Examples.goodCepText in
  let answer :=
    fst (ServiceA.GetWeatherViaServiceB Examples.lib world Http.NewResponseWriter r
           Examples.start) in
  (exists httpReq,
      forwarded Examples.lib r httpReq
      /\ RoundTrip world httpReq = Ok Examples.brokenAnswer)
  /\ Http.status answer = Some (Http.StatusCode Examples.brokenAnswer)
  /\ String.length (Http.content (Http.Body Examples.brokenAnswer)) = 59
  /\ String.length (Http.written answer) = 7
  /\ Http.written answer <> Http.content (Http.Body Examples.brokenAnswer).
Proof.
  intros world r answer.
  assert (Hlength : String.length (Http.written answer) = 7) by (vm_compute; reflexivity).
  assert (Hcontent : String.length (Http.content (Http.Body Examples.brokenAnswer)) = 59)
    by (vm_compute; reflexivity).
  split; [|split; [|split; [|split]]].
  - exists (Http.mkRequest "GET" Examples.serviceBURL (Trace.mkContext 0)). split.
    + exists (ServiceA.mkCEPRequest "01001000").
      split; [|split]; vm_compute; reflexivity.
    + reflexivity.
  - vm_compute. reflexivity.
  - exact Hcontent.
  - exact Hlength.
  - intros H. rewrite H, Hcontent in Hlength. discriminate Hlength.
Qed.

Lemma findField_cep (key : string) :
  Json.findField ["cep"] key
  = if String.eqb (Json.foldName key) (Json.foldName "cep") then Some "cep" else None.
Proof.
  unfold Json.findField. cbn [List.find].
  destruct (String.eqb_spec key "cep") as [->|Hne].
  - now rewrite String.eqb_refl.
  - rewrite (String.eqb_sym (Json.foldName "cep")).
    now destruct (String.eqb (Json.foldName key) (Json.foldName "cep")).
Qed.

(** Members that hold no postal code leave the request as it was. *)
Lemma storeCEPRequest_members (lib : Lib) (members : list (string * Json.value)) :
  Forall (fun member => namesCep member -> snd member = Json.Str EmptyString) members ->
  ServiceA.storeCEPRequest lib (Json.Object members) (ServiceA.mkCEPRequest EmptyString) None
  = (ServiceA.mkCEPRequest EmptyString, None).
Proof.
  unfold ServiceA.storeCEPRequest, Json.storeStruct.
  induction 1 as [|[key x] members Hmember _ IH]; [reflexivity|].
  cbn [fold_left fst snd]. rewrite findField_cep.
  destruct (String.eqb_spec (Json.foldName key) (Json.foldName "cep")) as [Hname|_].
  - pose proof (Hmember Hname) as Hx. cbn [snd] in Hx. subst x. exact IH.
  - exact IH.
Qed.

(** C10, amended. A well-formed JSON body that is [null], or an object in
    which no member is named [cep] in any letter case, or only members
    that hold the empty string, is not rejected as malformed: it decodes
    to an empty postal code and is answered 422 with the line
    [invalid zipcode], before any call. *)
Theorem body_without_postal_code_422 (lib : Lib) (world : World) (r : Http.ServerRequest)
    (st : state) (v : Json.value)
    (Hscan : Json.scan (json lib) (Http.RequestBody r) = Ok v)
    (Hnone : noPostalCode v) :
  ServiceA.decodeCEPRequest lib (Http.RequestBody r) = Ok (ServiceA.mkCEPRequest EmptyString)
  /\ errorResponse Http.StatusUnprocessableEntity "invalid zipcode"
       (fst (ServiceA.GetWeatherViaServiceB lib world Http.NewResponseWriter r st))
  /\ snd (ServiceA.GetWeatherViaServiceB lib world Http.NewResponseWriter r st) = st.
Proof.
  assert (Hdecode : ServiceA.decodeCEPRequest lib (Http.RequestBody r)
                    = Ok (ServiceA.mkCEPRequest EmptyString)).
  { unfold ServiceA.decodeCEPRequest, Json.Decode. rewrite Hscan.
    destruct Hnone as [-> | [members [-> Hmembers]]].
    - reflexivity.
    - now rewrite storeCEPRequest_members. }
  split; [exact Hdecode|].
  rewrite GetWeatherViaServiceB_run, Hdecode.
  change (ServiceA.isValidCEP (ServiceA.CEP (ServiceA.mkCEPRequest EmptyString))) with false.
  cbn [negb fst snd]. split; [apply errorResponse_fresh | reflexivity].
Qed.

(** The body [{}]. *)
Lemma body_without_postal_code_422_witness :
  errorResponse Http.StatusUnprocessableEntity "invalid zipcode"
    (fst (ServiceA.GetWeatherViaServiceB Examples.lib
            (Examples.gatewayWorld Examples.notFoundAnswer) Http.NewResponseWriter
            (Examples.toGateway Examples.emptyObjectText) Examples.start)).
Proof.
  apply (body_without_postal_code_422 Examples.lib
           (Examples.gatewayWorld Examples.notFoundAnswer)
           (Examples.toGateway Examples.emptyObjectText) Examples.start (Json.Object [])).
  - reflexivity.
  - right. exists []. split; [reflexivity | constructor].
Defined.

(** C10 as stated fails: the body [[]] is well-formed JSON without a
    [cep] field, and the gateway rejects it as malformed, with 400. *)
Lemma wellformed_array_400 :
  Json.scan (json Examples.lib) Examples.emptyArrayText = Ok (Json.Array [])
  /\ errorResponse Http.StatusBadRequest "invalid request body"
       (fst (ServiceA.GetWeatherViaServiceB Examples.lib
               (Examples.gatewayWorld Examples.notFoundAnswer) Http.NewResponseWriter
               (Examples.toGateway Examples.emptyArrayText) Examples.start)).
Proof. split; [reflexivity | repeat split]. Qed.

(** ** One response per request *)

(** Copying headers touches nothing but the header map. *)
Lemma copyHeader_frame (entries : list (string * list string)) :
  forall w : Http.ResponseWriter,
    Http.committed (ServiceA.copyHeader entries w) = Http.committed w
    /\ Http.written (ServiceA.copyHeader entries w) = Http.written w
    /\ Http.superfluous (ServiceA.copyHeader entries w) = Http.superfluous w.
Proof.
  assert (Hinner : forall key vs w,
             let w' :=
               fold_left
                 (fun w value => Http.editHeader (fun h => Http.HeaderAdd h key value) w)
                 vs w in
             Http.committed w' = Http.committed w
             /\ Http.written w' = Http.written w
             /\ Http.superfluous w' = Http.superfluous w).
  { intros key vs. induction vs as [|v vs IH]; intros w; cbn [fold_left].
    - repeat split.
    - destruct (IH (Http.editHeader (fun h => Http.HeaderAdd h key v) w)) as (Hc & Hb & Hs).
      cbv zeta. rewrite Hc, Hb, Hs. repeat split. }
  induction entries as [|entry entries IH]; intros w.
  - repeat split.
  - rewrite copyHeader_cons.
    destruct (Hinner (fst entry) (snd entry) w) as (Hc & Hb & Hs).
    destruct (IH (fold_left
                    (fun w value =>
                       Http.editHeader (fun h => Http.HeaderAdd h (fst entry) value) w)
                    (snd entry) w)) as (Hc' & Hb' & Hs').
    rewrite Hc', Hb', Hs', Hc, Hb, Hs. repeat split.
Qed.

(** The relay of a response, whole or cut. *)
Lemma relay_fresh (resp : Http.Response) :
  relayOf resp
    (fst (Http.Copy
            (Http.WriteHeader
               (ServiceA.copyHeader (map_to_list (Http.ResponseHeader resp))
                  Http.NewResponseWriter)
               (Http.StatusCode resp))
            (Http.Body resp))).
Proof.
  destruct (copyHeader_frame (map_to_list (Http.ResponseHeader resp)) Http.NewResponseWriter)
    as (Hc & Hb & Hs).
  set (w := ServiceA.copyHeader (map_to_list (Http.ResponseHeader resp))
              Http.NewResponseWriter) in *.
  cbn [Http.NewResponseWriter Http.committed Http.written Http.superfluous] in Hc, Hb, Hs.
  assert (Hreceived :
            match Http.cut (Http.Body resp) with
            | None => Http.received (Http.Body resp) = Http.content (Http.Body resp)
            | Some (n, _) =>
                Http.received (Http.Body resp)
                = String.substring 0 n (Http.content (Http.Body resp))
            end).
  { unfold Http.received. now destruct (Http.cut (Http.Body resp)) as [[n e]|]. }
  assert (Hwritten :
            Http.written
              (fst (Http.Copy (Http.WriteHeader w (Http.StatusCode resp)) (Http.Body resp)))
            = Http.received (Http.Body resp)).
  { unfold Http.Copy, Http.Write, Http.WriteHeader. rewrite Hc. cbn [fst].
    destruct (Http.received (Http.Body resp));
      cbn [Http.committed Http.written]; now rewrite Hb. }
  unfold relayOf. rewrite Hwritten. split; [|split].
  - unfold Http.status, Http.Copy, Http.Write, Http.WriteHeader. rewrite Hc. cbn [fst].
    now destruct (Http.received (Http.Body resp)).
  - unfold Http.Copy, Http.Write, Http.WriteHeader. rewrite Hc. cbn [fst].
    destruct (Http.received (Http.Body resp)); cbn [Http.committed Http.superfluous];
      exact Hs.
  - destruct (Http.cut (Http.Body resp)) as [[n e]|]; exact Hreceived.
Qed.

(** C8, amended. Whichever way a handler leaves, it has committed one
    status and attempted no second one, and its body is one whole line of
    error text or the whole success payload (at the gateway: the whole body
    of the orchestrator's answer), save in two cases: when the body of
    the orchestrator's answer breaks off during the relay, the gateway,
    which has committed the status by then, emits the bytes received; and
    when the orchestrator's payload does not encode, of which nothing is
    said here. *)
Theorem one_complete_response (lib : Lib) (world : World) (r : Http.ServerRequest)
    (st : state) :
  (let answer := fst (ServiceB.GetWeatherHandler lib world Http.NewResponseWriter r st) in
   (ServiceB.isValidCEP (Http.URLParam r "cep") = false
    /\ errorResponse Http.StatusUnprocessableEntity "invalid zipcode" answer)
   \/ (adapterFailure lib world r st (Errorf "can not find zipcode")
       /\ errorResponse Http.StatusNotFound "can not find zipcode" answer)
   \/ (exists e,
         adapterFailure lib world r st e
         /\ errorResponse Http.StatusInternalServerError (Error e) answer)
   \/ (exists payload,
         payloadEncoding lib world r st (Ok payload) /\ successResponse payload answer)
   \/ (exists e, payloadEncoding lib world r st (Err e)))
  /\ (let answer := fst (ServiceA.GetWeatherViaServiceB lib world Http.NewResponseWriter r st) in
      (exists e,
          ServiceA.decodeCEPRequest lib (Http.RequestBody r) = Err e
          /\ errorResponse Http.StatusBadRequest "invalid request body" answer)
      \/ (exists req,
            ServiceA.decodeCEPRequest lib (Http.RequestBody r) = Ok req
            /\ ServiceA.isValidCEP (ServiceA.CEP req) = false
            /\ errorResponse Http.StatusUnprocessableEntity "invalid zipcode" answer)
      \/ errorResponse Http.StatusInternalServerError
           "erro ao criar requisição para o serviço B" answer
      \/ (exists httpReq e,
            forwarded lib r httpReq
            /\ RoundTrip world httpReq = Err e
            /\ errorResponse Http.StatusInternalServerError "erro ao chamar o serviço B"
                 answer)
      \/ (exists httpReq resp,
            forwarded lib r httpReq
            /\ RoundTrip world httpReq = Ok resp
            /\ relayOf resp answer)).
Proof.
  split; intros answer; subst answer.
  - rewrite GetWeatherHandler_run. unfold adapterFailure, payloadEncoding.
    destruct (ServiceB.isValidCEP (Http.URLParam r "cep")); cbn [negb];
      [|left; split; [reflexivity | apply errorResponse_fresh]].
    destruct (ServiceB.fetchLocation _ _ _ _ _) as [[location|err] st1] eqn:Hlocation.
    + destruct (ServiceB.fetchWeather _ _ _ _ _) as [[weather|err] st2] eqn:Hweather.
      * cbv zeta.
        destruct (ServiceB.Marshal lib
                    (ServiceB.mkFinalResponse (ServiceB.Localidade location)
                       (ServiceB.Current_TempC (ServiceB.Current weather))
                       (ServiceB.Current_TempC (ServiceB.Current weather) * 1.8 + 32)%float
                       (ServiceB.Current_TempC (ServiceB.Current weather) + 273)%float))
          as [payload|e] eqn:Hpayload.
        -- do 3 right. left. exists payload. split.
           ++ exists location, st1, weather, st2. repeat split; assumption.
           ++ rewrite (Encode_fresh lib _ payload Hpayload). repeat split.
        -- do 4 right. exists e, location, st1, weather, st2. repeat split; assumption.
      * do 2 right. left. exists err. split; [|apply errorResponse_fresh].
        right. exists location, st1, st2. split; [reflexivity | exact Hweather].
    + cbn [fst]. destruct (String.eqb_spec (Error err) "can not find zipcode") as [Htext|_].
      * right. left. split; [|apply errorResponse_fresh].
        left. exists st1. destruct err as [text]. cbn [Error] in Htext. now subst text.
      * do 2 right. left. exists err. split; [|apply errorResponse_fresh].
        left. now exists st1.
  - rewrite GetWeatherViaServiceB_run. unfold forwarded.
    destruct (ServiceA.decodeCEPRequest lib (Http.RequestBody r)) as [req|err] eqn:Hdecode;
      [|left; exists err; split; [reflexivity | apply errorResponse_fresh]].
    destruct (ServiceA.isValidCEP (ServiceA.CEP req)) eqn:Hvalid; cbn [negb];
      [|right; left; exists req;
        split; [reflexivity | split; [exact Hvalid | apply errorResponse_fresh]]].
    destruct (Http.NewRequestWithContext _ _ _ _) as [httpReq|err] eqn:Hbuilt;
      [|do 2 right; left; apply errorResponse_fresh].
    cbn [fst]. destruct (RoundTrip world httpReq) as [resp|err] eqn:Hcall.
    + do 4 right. exists httpReq, resp. split; [|split; [exact Hcall | apply relay_fresh]].
      exists req. repeat split; assumption.
    + do 3 right. left. exists httpReq, err. split; [|split; [exact Hcall|]].
      * exists req. repeat split; assumption.
      * apply errorResponse_fresh.
Qed.

Lemma endsLine_line (text : string) : endsLine (text +:+ newline) = true.
Proof.
  induction text as [|c text IH]; [reflexivity|].
  change (String c text +:+ newline) with (String c (text +:+ newline)).
  destruct (text +:+ newline) as [|c' rest] eqn:Htext.
  - destruct text; discriminate Htext.
  - exact IH.
Qed.

(** C8 as stated fails at the gateway: the orchestrator's answer breaks
    off after seven bytes; the gateway has committed status 200 and emits
    those seven bytes, which are neither the whole payload nor a line. *)
Lemma truncated_relay_is_partial :
  let answer :=
    fst (ServiceA.GetWeatherViaServiceB Examples.lib
           (Examples.gatewayWorld Examples.brokenAnswer) Http.NewResponseWriter
           (Examples.toGateway Examples.goodCepText) Examples.start) in
  Http.status answer = Some Http.StatusOK
  /\ Http.written answer = "{" +:+ dquote +:+ "city" +:+ dquote
  /\ Http.written answer <> Http.content (Http.Body Examples.brokenAnswer)
  /\ (forall text, Http.written answer <> text +:+ newline).
Proof.
  intros answer.
  assert (Hwritten : Http.written answer = "{" +:+ dquote +:+ "city" +:+ dquote)
    by (vm_compute; reflexivity).
  split; [|split; [|split]].
  - vm_compute. reflexivity.
  - exact Hwritten.
  - rewrite Hwritten. vm_compute. discriminate.
  - intros text Htext. apply (f_equal endsLine) in Htext.
    rewrite endsLine_line, Hwritten in Htext. vm_compute in Htext. discriminate Htext.
Qed.

(** What the orchestrator does when its payload does not encode: at 1e308
    degrees Celsius the Fahrenheit value is infinite; status 200 and the
    JSON header block are committed by then, so the attempt to answer 500
    comes too late and the error text goes out under status 200. *)
Lemma encoding_failure_after_status :
  let answer :=
    fst (ServiceB.GetWeatherHandler Examples.lib Examples.scorchingWorld
           Http.NewResponseWriter (Examples.toOrchestrator "01001000") Examples.start) in
  Http.committed answer = Some (Http.StatusOK, jsonHeader)
  /\ Http.written answer = "json: unsupported value: +Inf" +:+ newline
  /\ Http.superfluous answer = 1.
Proof. repeat split. Qed.

(** * Further properties *)

(** ** The gateway's decoding of its request body *)

(** One step of the decoder's loop over the members of the body. *)
Lemma storeCEPRequest_cons (lib : Lib) (member : string * Json.value)
    (members : list (string * Json.value)) (old : ServiceA.CEPRequest) (saved : option error) :
  ServiceA.storeCEPRequest lib (Json.Object (member :: members)) old saved
  = ServiceA.storeCEPRequest lib (Json.Object members)
      (if String.eqb (Json.foldName (fst member)) (Json.foldName "cep")
       then ServiceA.mkCEPRequest
              (fst (Json.storeString (json lib) "CEPRequest.cep" (snd member)
                      (ServiceA.CEP old) saved))
       else old)
      (if String.eqb (Json.foldName (fst member)) (Json.foldName "cep")
       then snd (Json.storeString (json lib) "CEPRequest.cep" (snd member)
                   (ServiceA.CEP old) saved)
       else saved).
Proof.
  unfold ServiceA.storeCEPRequest, Json.storeStruct. cbn [fold_left fst snd].
  rewrite findField_cep.
  destruct (String.eqb (Json.foldName (fst member)) (Json.foldName "cep")); [|reflexivity].
  now destruct (Json.storeString _ _ _ _ _).
Qed.

(** A type error, once saved, stays until the end of the value. *)
Lemma storeCEPRequest_sticky (lib : Lib) (members : list (string * Json.value)) (e : error) :
  forall old : ServiceA.CEPRequest,
    snd (ServiceA.storeCEPRequest lib (Json.Object members) old (Some e)) = Some e.
Proof.
  induction members as [|[key x] members IH]; intros old; [reflexivity|].
  rewrite storeCEPRequest_cons. cbn [fst snd].
  destruct (String.eqb _ _); [|apply IH].
  destruct x; cbn [Json.storeString Json.saveError fst snd]; apply IH.
Qed.

Lemma storeCEPRequest_mistyped (lib : Lib) (members : list (string * Json.value)) :
  Exists (fun member => namesCep member /\ textOrNull (snd member) = false) members ->
  forall (old : ServiceA.CEPRequest) (saved : option error),
    exists e, snd (ServiceA.storeCEPRequest lib (Json.Object members) old saved) = Some e.
Proof.
  induction 1 as [[key x] members [Hname Hkind]|[key x] members _ IH]; intros old saved.
  - rewrite storeCEPRequest_cons. unfold namesCep in Hname. cbn [fst snd] in *.
    rewrite Hname, String.eqb_refl.
    destruct x; try discriminate Hkind; destruct saved as [e|];
      cbn [Json.storeString Json.saveError fst snd]; eexists; apply storeCEPRequest_sticky.
  - rewrite storeCEPRequest_cons. apply IH.
Qed.

(** Members that are not named [cep], or hold [null], change nothing. *)
Lemma storeCEPRequest_skipped (lib : Lib) (members : list (string * Json.value)) :
  Forall (fun member => namesCep member -> snd member = Json.Null) members ->
  forall (old : ServiceA.CEPRequest) (saved : option error),
    ServiceA.storeCEPRequest lib (Json.Object members) old saved = (old, saved).
Proof.
  induction 1 as [|[key x] members Hmember _ IH]; intros old saved; [reflexivity|].
  rewrite storeCEPRequest_cons. cbn [fst snd].
  destruct (String.eqb_spec (Json.foldName key) (Json.foldName "cep")) as [Hname|_].
  - pose proof (Hmember Hname) as Hx. cbn [snd] in Hx. subst x.
    cbn [Json.storeString fst snd]. rewrite IH. now destruct old.
  - apply IH.
Qed.

(** Members that hold strings or [null] under the name [cep] raise no
    type error. *)
Lemma storeCEPRequest_texts (lib : Lib) (members : list (string * Json.value)) :
  Forall (fun member => namesCep member -> textOrNull (snd member) = true) members ->
  forall old : ServiceA.CEPRequest,
    snd (ServiceA.storeCEPRequest lib (Json.Object (members)) old None) = None.
Proof.
  induction 1 as [|[key x] members Hmember _ IH]; intros old; [reflexivity|].
  rewrite storeCEPRequest_cons. cbn [fst snd].
  destruct (String.eqb_spec (Json.foldName key) (Json.foldName "cep")) as [Hname|_].
  - pose proof (Hmember Hname) as Hx. cbn [snd] in Hx.
    destruct x; try discriminate Hx; cbn [Json.storeString fst snd]; apply IH.
  - apply IH.
Qed.

Lemma storeCEPRequest_app (lib : Lib) (before after : list (string * Json.value))
    (old : ServiceA.CEPRequest) (saved : option error) :
  ServiceA.storeCEPRequest lib (Json.Object (before ++ after)) old saved
  = ServiceA.storeCEPRequest lib (Json.Object after)
      (fst (ServiceA.storeCEPRequest lib (Json.Object before) old saved))
      (snd (ServiceA.storeCEPRequest lib (Json.Object before) old saved)).
Proof.
  unfold ServiceA.storeCEPRequest, Json.storeStruct. rewrite fold_left_app.
  now destruct (fold_left _ before (old, saved)).
Qed.

(** X1. A well-formed body of the wrong type, that is a value other than
    an object or [null], or an object with a member named [cep] in any
    letter case that holds neither a string nor [null], fails to decode,
    whatever else the object holds; the gateway answers 400 with the line
    [invalid request body] and has done nothing else. *)
Theorem mistyped_body_400 (lib : Lib) (world : World) (r : Http.ServerRequest) (st : state)
    (v : Json.value)
    (Hscan : Json.scan (json lib) (Http.RequestBody r) = Ok v)
    (Htype : mistyped v) :
  let run := ServiceA.GetWeatherViaServiceB lib world Http.NewResponseWriter r st in
  (exists e, ServiceA.decodeCEPRequest lib (Http.RequestBody r) = Err e)
  /\ errorResponse Http.StatusBadRequest "invalid request body" (fst run)
  /\ snd run = st.
Proof.
  assert (Hdecode : exists e, ServiceA.decodeCEPRequest lib (Http.RequestBody r) = Err e).
  { unfold ServiceA.decodeCEPRequest, Json.Decode, Json.verdict. rewrite Hscan.
    destruct v as [|b|lit|s|items|members]; cbn in Htype; try contradiction;
      try (eexists; reflexivity).
    destruct (storeCEPRequest_mistyped lib members Htype (ServiceA.mkCEPRequest EmptyString)
                None) as [e He].
    rewrite He. now exists e. }
  cbv zeta. rewrite GetWeatherViaServiceB_run.
  destruct Hdecode as [e He]. rewrite He. cbn [fst snd].
  split; [now exists e | split; [apply errorResponse_fresh | reflexivity]].
Qed.

Lemma mistyped_body_400_witness :
  let r := Examples.toGateway Cases.numberCepText in
  let run :=
    ServiceA.GetWeatherViaServiceB Cases.lib Examples.offlineWorld Http.NewResponseWriter r
      Examples.start in
  (exists e, ServiceA.decodeCEPRequest Cases.lib (Http.RequestBody r) = Err e)
  /\ errorResponse Http.StatusBadRequest "invalid request body" (fst run)
  /\ snd run = Examples.start.
Proof.
  apply (mistyped_body_400 Cases.lib Examples.offlineWorld
           (Examples.toGateway Cases.numberCepText) Examples.start
           (Json.Object [("cep", Json.Number "1001000")])).
  - reflexivity.
  - apply Exists_cons_hd. split; reflexivity.
Defined.

(** X2. The postal code the gateway reads is the string of the last
    member named [cep] in any letter case, when the members named so
    before it hold strings or [null] and those after it hold [null]:
    the letter case of the name does not matter and a later member
    overrides an earlier one. *)
Theorem last_cep_member_decoded (lib : Lib) (body key cep : string)
    (before after : list (string * Json.value))
    (Hscan : Json.scan (json lib) body
             = Ok (Json.Object (before ++ (key, Json.Str cep) :: after)))
    (Hname : namesCep (key, Json.Str cep))
    (Hbefore : Forall (fun member => namesCep member -> textOrNull (snd member) = true) before)
    (Hafter : Forall (fun member => namesCep member -> snd member = Json.Null) after) :
  ServiceA.decodeCEPRequest lib body = Ok (ServiceA.mkCEPRequest cep).
Proof.
  unfold ServiceA.decodeCEPRequest, Json.Decode, Json.verdict. rewrite Hscan.
  rewrite storeCEPRequest_app, storeCEPRequest_cons.
  rewrite (storeCEPRequest_texts lib before Hbefore).
  unfold namesCep in Hname. cbn [fst snd] in *. rewrite Hname, String.eqb_refl.
  cbn [Json.storeString fst snd]. now rewrite (storeCEPRequest_skipped lib after Hafter).
Qed.

Lemma last_cep_member_decoded_witness :
  ServiceA.decodeCEPRequest Cases.lib Cases.twoCepsText = Ok (ServiceA.mkCEPRequest "01001000").
Proof.
  apply (last_cep_member_decoded Cases.lib Cases.twoCepsText "CEP" "01001000"
           [("cep", Json.Str "99999999")] []).
  - reflexivity.
  - reflexivity.
  - repeat constructor.
  - constructor.
Defined.

(** ** The gateway's outbound call *)

Lemma ServiceA_isValidCEP_digits (s : string) :
  ServiceA.isValidCEP s = true -> eightAsciiDigits s.
Proof.
  intros H. apply matched_iff_eight_digits.
  unfold ServiceA.isValidCEP in H. now destruct (Regexp.MatchString "^[0-9]{8}$" s).
Qed.

(** X3. Whatever the request and the world, the gateway issues no call
    or exactly one: a [GET] of [http://service-b:8081/weather/] followed
    by eight ASCII digits, built under the context of the inbound
    request. *)
Theorem gateway_call_discipline (lib : Lib) (world : World) (w : Http.ResponseWriter)
    (r : Http.ServerRequest) (st : state) :
  let st' := snd (ServiceA.GetWeatherViaServiceB lib world w r st) in
  calls st' = calls st
  \/ exists cep,
       eightAsciiDigits cep
       /\ calls st'
          = calls st
            ++ [Http.mkRequest "GET" ("http://service-b:8081/weather/" +:+ cep)
                  (Http.Context r)].
Proof.
  cbv zeta. rewrite GetWeatherViaServiceB_run.
  destruct (ServiceA.decodeCEPRequest lib (Http.RequestBody r)) as [req|e]; [|now left].
  destruct (ServiceA.isValidCEP (ServiceA.CEP req)) eqn:Hvalid; cbn [negb]; [|now left].
  unfold Http.NewRequestWithContext.
  destruct (urlError lib _); [now left|].
  cbn [snd calls]. right.
  exists (ServiceA.CEP req). split; [now apply ServiceA_isValidCEP_digits | reflexivity].
Qed.

(** X4. When the gateway cannot reach the orchestrator it answers 500 with
    the fixed line [erro ao chamar o serviço B], which says nothing of the
    cause, after that one call; when it cannot even build the request it
    answers 500 with [erro ao criar requisição para o serviço B] and has
    issued no call. *)
Theorem gateway_upstream_failure_500 (lib : Lib) (world : World) (r : Http.ServerRequest)
    (st : state) (req : ServiceA.CEPRequest)
    (Hdecode : ServiceA.decodeCEPRequest lib (Http.RequestBody r) = Ok req)
    (Hvalid : ServiceA.isValidCEP (ServiceA.CEP req) = true) :
  let run := ServiceA.GetWeatherViaServiceB lib world Http.NewResponseWriter r st in
  let build :=
    Http.NewRequestWithContext (urlError lib) (Http.Context r) "GET"
      ("http://service-b:8081/weather/" +:+ ServiceA.CEP req) in
  (forall httpReq e,
      build = Ok httpReq ->
      RoundTrip world httpReq = Err e ->
      errorResponse Http.StatusInternalServerError "erro ao chamar o serviço B" (fst run)
      /\ calls (snd run) = calls st ++ [httpReq])
  /\ (forall e,
        build = Err e ->
        errorResponse Http.StatusInternalServerError
          "erro ao criar requisição para o serviço B" (fst run)
        /\ snd run = st).
Proof.
  cbv zeta. rewrite GetWeatherViaServiceB_run, Hdecode, Hvalid. cbn [negb].
  split.
  - intros httpReq e Hbuild Hcall. rewrite Hbuild, Hcall. cbn [fst snd calls].
    split; [apply errorResponse_fresh | reflexivity].
  - intros e Hbuild. rewrite Hbuild. cbn [fst snd].
    split; [apply errorResponse_fresh | reflexivity].
Qed.

Lemma gateway_upstream_failure_500_witness :
  let r := Examples.toGateway Examples.goodCepText in
  let run :=
    ServiceA.GetWeatherViaServiceB Examples.lib Examples.offlineWorld Http.NewResponseWriter r
      Examples.start in
  errorResponse Http.StatusInternalServerError "erro ao chamar o serviço B" (fst run)
  /\ calls (snd run)
     = [Http.mkRequest "GET" Examples.serviceBURL (Trace.mkContext 0)].
Proof.
  apply (proj1 (gateway_upstream_failure_500 Examples.lib Examples.offlineWorld
                  (Examples.toGateway Examples.goodCepText) Examples.start
                  (ServiceA.mkCEPRequest "01001000") eq_refl eq_refl)
           (Http.mkRequest "GET" Examples.serviceBURL (Trace.mkContext 0))
           (mkError "dial tcp: lookup failed: no such host"));
    reflexivity.
Defined.

(** X5. The header block the gateway relays does not depend on the order
    in which the loop over the response's header map visits its keys:
    in any order, every key ends with the values the orchestrator sent
    under it, repeated header lines included, in the order of the wire,
    and the status line is not committed by the loop. *)
Theorem relayed_header_any_order (resp : Http.Response)
    (entries : list (string * list string))
    (Horder : entries ≡ₚ map_to_list (Http.ResponseHeader resp)) :
  let w := ServiceA.copyHeader entries Http.NewResponseWriter in
  Http.committed w = None
  /\ Http.written w = EmptyString
  /\ forall k, Http.values (Http.handlerHeader w) k = Http.values (Http.ResponseHeader resp) k.
Proof.
  destruct (copyHeader_any_order (Http.ResponseHeader resp) entries Http.NewResponseWriter
              Horder (readHeader_canonical (Http.HeaderLines resp)))
    as (Hc & Hb & _ & Hv).
  cbv zeta. split; [exact Hc | split; [exact Hb |]].
  intros k. rewrite Hv. reflexivity.
Qed.

Lemma relayed_header_any_order_witness :
  let w :=
    ServiceA.copyHeader
      (rev (map_to_list (Http.ResponseHeader Examples.notFoundAnswer)))
      Http.NewResponseWriter in
  Http.committed w = None
  /\ Http.written w = EmptyString
  /\ forall k,
       Http.values (Http.handlerHeader w) k
       = Http.values (Http.ResponseHeader Examples.notFoundAnswer) k.
Proof.
  apply (relayed_header_any_order Examples.notFoundAnswer
           (rev (map_to_list (Http.ResponseHeader Examples.notFoundAnswer)))).
  exact (Permutation_sym (Permutation_rev _)).
Defined.

(** ** The orchestrator's calls and spans *)

(** The state in which the orchestrator's handler leaves. *)
Lemma GetWeatherHandler_state (lib : Lib) (world : World) (w : Http.ResponseWriter)
    (r : Http.ServerRequest) (st : state) :
  snd (ServiceB.GetWeatherHandler lib world w r st)
  = if ServiceB.isValidCEP (Http.URLParam r "cep")
    then
      match ServiceB.fetchLocation lib world (Http.Context r) (Http.URLParam r "cep")
              (attributed r st) with
      | (Err _, st1) => st1
      | (Ok location, st1) =>
          snd (ServiceB.fetchWeather lib world (Http.Context r)
                 (ServiceB.Localidade location) st1)
      end
    else st.
Proof.
  rewrite GetWeatherHandler_run.
  destruct (ServiceB.isValidCEP (Http.URLParam r "cep")); cbn [negb]; [|reflexivity].
  destruct (ServiceB.fetchLocation _ _ _ _ _) as [[location|err] st1]; [|reflexivity].
  now destruct (ServiceB.fetchWeather _ _ _ _ _) as [[weather|err] st2].
Qed.

Lemma fetchLocation_calls (lib : Lib) (world : World) (ctx : Trace.Context) (cep : string)
    (st : state) :
  let st1 := snd (ServiceB.fetchLocation lib world ctx cep st) in
  calls st1 = calls st
  \/ calls st1
     = calls st
       ++ [Http.mkRequest "GET" (locationURL cep) (Trace.mkContext (Trace.nextSpan (tracer st)))].
Proof.
  cbv zeta. rewrite fetchLocation_run. cbv zeta. unfold Http.NewRequestWithContext.
  destruct (urlError lib _); cbn [snd calls]; [now left | now right].
Qed.

Lemma fetchWeather_calls (lib : Lib) (world : World) (ctx : Trace.Context) (city : string)
    (st : state) :
  let st2 := snd (ServiceB.fetchWeather lib world ctx city st) in
  calls st2 = calls st
  \/ (Getenv world "WEATHER_API_KEY" <> EmptyString
      /\ calls st2
         = calls st
           ++ [Http.mkRequest "GET" (weatherURL (Getenv world "WEATHER_API_KEY") city)
                 (Trace.mkContext (Trace.nextSpan (tracer st)))]).
Proof.
  cbv zeta. rewrite fetchWeather_run. cbv zeta. unfold Http.NewRequestWithContext.
  destruct (String.eqb_spec (Getenv world "WEATHER_API_KEY") EmptyString) as [_|Hkey];
    [now left|].
  destruct (urlError lib _); cbn [snd calls]; [now left | right; now split].
Qed.

Lemma ServiceB_isValidCEP_digits (s : string) :
  ServiceB.isValidCEP s = true -> eightAsciiDigits s.
Proof.
  intros H. apply matched_iff_eight_digits.
  unfold ServiceB.isValidCEP in H. now destruct (Regexp.MatchString "^[0-9]{8}$" s).
Qed.

(** X6. Whatever the request and the world, the orchestrator issues no
    call, or one call to the address provider for a postal code of
    eight digits, or that call followed by one call to the weather
    provider; the second is issued only when the address adapter has
    returned a locality and a credential is set, and it asks for that
    locality, escaped, under that credential. Each call is built under
    the span of its adapter. *)
Theorem orchestrator_call_discipline (lib : Lib) (world : World) (w : Http.ResponseWriter)
    (r : Http.ServerRequest) (st : state) :
  let cep := Http.URLParam r "cep" in
  let n := Trace.nextSpan (tracer st) in
  let st' := snd (ServiceB.GetWeatherHandler lib world w r st) in
  let first := Http.mkRequest "GET" (locationURL cep) (Trace.mkContext n) in
  calls st' = calls st
  \/ (eightAsciiDigits cep
      /\ (calls st' = calls st ++ [first]
          \/ exists location st1,
               ServiceB.fetchLocation lib world (Http.Context r) cep (attributed r st)
               = (Ok location, st1)
               /\ Getenv world "WEATHER_API_KEY" <> EmptyString
               /\ calls st'
                  = calls st
                    ++ [first;
                        Http.mkRequest "GET"
                          (weatherURL (Getenv world "WEATHER_API_KEY")
                             (ServiceB.Localidade location))
                          (Trace.mkContext (S n))])).
Proof.
  cbv zeta. rewrite GetWeatherHandler_state.
  destruct (ServiceB.isValidCEP (Http.URLParam r "cep")) eqn:Hvalid; [|now left].
  apply ServiceB_isValidCEP_digits in Hvalid.
  pose proof (fetchLocation_calls lib world (Http.Context r) (Http.URLParam r "cep")
                (attributed r st)) as Hfirst.
  pose proof (fetchLocation_tracer lib world (Http.Context r) (Http.URLParam r "cep")
                (attributed r st)) as Hspans.
  cbv zeta in Hfirst.
  change (calls (attributed r st)) with (calls st) in Hfirst.
  change (Trace.nextSpan (tracer (attributed r st))) with (Trace.nextSpan (tracer st))
    in Hfirst, Hspans.
  destruct (ServiceB.fetchLocation _ _ _ _ _) as [[location|err] st1] eqn:Hlocation;
    cbn [snd] in Hfirst, Hspans.
  - pose proof (fetchWeather_calls lib world (Http.Context r) (ServiceB.Localidade location)
                  st1) as Hsecond.
    cbv zeta in Hsecond. rewrite Hspans in Hsecond. cbn [Trace.nextSpan] in Hsecond.
    destruct Hsecond as [Hsame | [Hkey Hsecond]].
    + rewrite Hsame. destruct Hfirst as [Hfirst|Hfirst];
        [now left | right; split; [exact Hvalid | now left]].
    + destruct Hfirst as [Hfirst|Hfirst].
      * left. rewrite Hsecond. exfalso.
        revert Hfirst. rewrite fetchLocation_run in Hlocation. cbv zeta in Hlocation.
        unfold Http.NewRequestWithContext in Hlocation.
        destruct (urlError lib _); [discriminate Hlocation|].
        injection Hlocation as _ <-. cbn [calls].
        change (calls (attributed r st)) with (calls st). apply not_eq_sym, no_request_issued.
      * right. split; [exact Hvalid|]. right. exists location, st1.
        split; [reflexivity | split; [exact Hkey|]].
        rewrite Hsecond, Hfirst, <- app_assoc. reflexivity.
  - destruct Hfirst as [Hfirst|Hfirst];
      [now left | right; split; [exact Hvalid | now left]].
Qed.

(** X7. The spans of a request handled by the orchestrator: none is
    opened and nothing is recorded for an invalid postal code; otherwise
    the postal code is put on the span of the request, the span of the
    address adapter is opened under that span and closed, and, when and
    only when the address adapter has returned a locality, the span of
    the weather adapter is opened after it, under the same parent, and
    closed. *)
Theorem orchestrator_trace_shape (lib : Lib) (world : World) (w : Http.ResponseWriter)
    (r : Http.ServerRequest) (st : state) :
  let cep := Http.URLParam r "cep" in
  let root := Trace.currentSpan (Http.Context r) in
  let n := Trace.nextSpan (tracer st) in
  let address :=
    [Trace.SpanAttribute root "cep" cep; Trace.SpanStart n "fetchLocation-viacep" root;
     Trace.SpanEnd n] in
  let weather := [Trace.SpanStart (S n) "fetchWeather-weatherapi" root; Trace.SpanEnd (S n)] in
  Trace.events (tracer (snd (ServiceB.GetWeatherHandler lib world w r st)))
  = Trace.events (tracer st)
    ++ (if ServiceB.isValidCEP cep
        then
          match fst (ServiceB.fetchLocation lib world (Http.Context r) cep (attributed r st)) with
          | Ok _ => address ++ weather
          | Err _ => address
          end
        else []).
Proof.
  cbv zeta. rewrite GetWeatherHandler_state.
  destruct (ServiceB.isValidCEP (Http.URLParam r "cep")); [|now rewrite app_nil_r].
  pose proof (fetchLocation_tracer lib world (Http.Context r) (Http.URLParam r "cep")
                (attributed r st)) as Hl.
  destruct (ServiceB.fetchLocation _ _ _ _ _) as [[location|err] st1]; cbn [fst snd] in *.
  - rewrite fetchWeather_tracer, Hl. cbn [Trace.events Trace.nextSpan].
    unfold attributed, SetAttributes, onTracer, Trace.SetAttributes, Trace.record.
    cbn [snd tracer Trace.events Trace.nextSpan]. rewrite <- !app_assoc. reflexivity.
  - rewrite Hl. cbn [Trace.events].
    unfold attributed, SetAttributes, onTracer, Trace.SetAttributes, Trace.record.
    cbn [snd tracer Trace.events Trace.nextSpan]. rewrite <- !app_assoc. reflexivity.
Qed.

(** ** Failures of the weather adapter *)

(** X8. Once the locality is resolved, every failure of the weather
    adapter is answered 500 with the adapter's error text: a call that
    fails in transit with the client's [Get], URL and cause; a body that
    breaks off with the cause after [erro ao ler resposta da WeatherAPI];
    a body that does not decode with the decoder's error after
    [erro ao decodificar JSON da WeatherAPI]. *)
Theorem weather_failures_500 (lib : Lib) (world : World) (r : Http.ServerRequest)
    (st st1 : state) (location : ServiceB.ViaCEPResponse)
    (Hvalid : ServiceB.isValidCEP (Http.URLParam r "cep") = true)
    (Hlocation :
       ServiceB.fetchLocation lib world (Http.Context r) (Http.URLParam r "cep")
         (attributed r st) = (Ok location, st1)) :
  let run :=
    ServiceB.fetchWeather lib world (Http.Context r) (ServiceB.Localidade location) st1 in
  let answer := fst (ServiceB.GetWeatherHandler lib world Http.NewResponseWriter r st) in
  (forall e,
      fst run = Err e -> errorResponse Http.StatusInternalServerError (Error e) answer)
  /\ (forall req cause,
        calls (snd run) = calls st1 ++ [req] ->
        RoundTrip world req = Err cause ->
        errorResponse Http.StatusInternalServerError
          ("Get "
           +:+ urlText lib
                 (weatherURL (Getenv world "WEATHER_API_KEY") (ServiceB.Localidade location))
           +:+ ": " +:+ Error cause)
          answer)
  /\ (forall req resp cause,
        calls (snd run) = calls st1 ++ [req] ->
        RoundTrip world req = Ok resp ->
        Http.ReadAll (Http.Body resp) = Err cause ->
        errorResponse Http.StatusInternalServerError
          ("erro ao ler resposta da WeatherAPI: " +:+ Error cause) answer)
  /\ (forall req resp body cause,
        calls (snd run) = calls st1 ++ [req] ->
        RoundTrip world req = Ok resp ->
        Http.ReadAll (Http.Body resp) = Ok body ->
        ServiceB.unmarshalWeatherAPIResponse lib body = Err cause ->
        errorResponse Http.StatusInternalServerError
          ("erro ao decodificar JSON da WeatherAPI: " +:+ Error cause) answer).
Proof.
  intros run answer.
  assert (Hanswer : forall e,
             fst run = Err e ->
             errorResponse Http.StatusInternalServerError (Error e) answer).
  { intros e He. subst answer. rewrite GetWeatherHandler_run, Hvalid, Hlocation.
    cbn [negb]. fold run. destruct run as [[weather|err] st2]; cbn [fst] in He;
      [discriminate|].
    injection He as ->. apply errorResponse_fresh. }
  assert (Hcalls : forall req,
            calls (snd run) = calls st1 ++ [req] ->
            req = Http.mkRequest "GET"
                    (weatherURL (Getenv world "WEATHER_API_KEY")
                       (ServiceB.Localidade location))
                    (Http.Ctx req)
            /\ fst run
               = match RoundTrip world req with
                 | Err err => Err (Http.clientError (urlText lib) req err)
                 | Ok resp =>
                     match Http.ReadAll (Http.Body resp) with
                     | Err err => Err (Errorf_w "erro ao ler resposta da WeatherAPI: " err)
                     | Ok body =>
                         match ServiceB.unmarshalWeatherAPIResponse lib body with
                         | Err err =>
                             Err (Errorf_w "erro ao decodificar JSON da WeatherAPI: " err)
                         | Ok v => Ok v
                         end
                     end
                 end).
  { intros req. subst run. rewrite fetchWeather_run. cbv zeta.
    unfold Http.NewRequestWithContext.
    destruct (String.eqb _ EmptyString); cbn [fst snd calls]; intros Hreq;
      [now apply no_request_issued in Hreq|].
    revert Hreq. destruct (urlError lib _); cbn [fst snd calls]; intros Hreq.
    - now apply no_request_issued in Hreq.
    - apply requests_issued in Hreq. subst req. split; reflexivity. }
  split; [exact Hanswer | split; [|split]].
  - intros req cause Hreq Hresp. destruct (Hcalls req Hreq) as [Hshape Hrun].
    rewrite Hresp in Hrun. apply Hanswer in Hrun. rewrite Hshape in Hrun.
    destruct cause as [text]. exact Hrun.
  - intros req resp cause Hreq Hresp Hbody. destruct (Hcalls req Hreq) as [_ Hrun].
    rewrite Hresp, Hbody in Hrun. exact (Hanswer _ Hrun).
  - intros req resp body cause Hreq Hresp Hbody Hcause.
    destruct (Hcalls req Hreq) as [_ Hrun].
    rewrite Hresp, Hbody, Hcause in Hrun. exact (Hanswer _ Hrun).
Qed.

(** The weather provider is out of reach, and the cause reads like the
    not-found line: the answer is 500 all the same. *)
Lemma weather_failures_500_witness :
  errorResponse Http.StatusInternalServerError
    ("Get " +:+ Examples.quoted (Examples.weatherURL "k1") +:+ ": can not find zipcode")
    (fst (ServiceB.GetWeatherHandler Examples.lib Cases.misleadingWorld
            Http.NewResponseWriter (Examples.toOrchestrator "01001000") Examples.start)).
Proof.
  pose (r := Examples.toOrchestrator "01001000").
  pose (st1 := snd (ServiceB.fetchLocation Examples.lib Cases.misleadingWorld (Http.Context r)
                      (Http.URLParam r "cep") (attributed r Examples.start))).
  assert (Hvalid : ServiceB.isValidCEP (Http.URLParam r "cep") = true)
    by (vm_compute; reflexivity).
  assert (Hlocation :
            ServiceB.fetchLocation Examples.lib Cases.misleadingWorld (Http.Context r)
              (Http.URLParam r "cep") (attributed r Examples.start)
            = (Ok (ServiceB.mkViaCEPResponse "São Paulo" EmptyString), st1))
    by (vm_compute; reflexivity).
  destruct (weather_failures_500 Examples.lib Cases.misleadingWorld r Examples.start st1
              (ServiceB.mkViaCEPResponse "São Paulo" EmptyString) Hvalid Hlocation)
    as (_ & H & _).
  apply (H (Http.mkRequest "GET" (Examples.weatherURL "k1") (Trace.mkContext 2))
           (mkError "can not find zipcode")); vm_compute; reflexivity.
Defined.

(** ** What the adapters read of a provider's answer *)

Lemma fetchLocation_sameBody (lib : Lib) (world world' : World) (ctx : Trace.Context)
    (cep : string) (st : state) :
  (forall req, sameBody (RoundTrip world req) (RoundTrip world' req)) ->
  ServiceB.fetchLocation lib world ctx cep st = ServiceB.fetchLocation lib world' ctx cep st.
Proof.
  intros Hbodies. rewrite !fetchLocation_run. cbv zeta.
  destruct (Http.NewRequestWithContext _ _ _ _) as [req|err]; [|reflexivity].
  specialize (Hbodies req). unfold sameBody in Hbodies.
  destruct (RoundTrip world req) as [resp|e], (RoundTrip world' req) as [resp'|e'];
    try contradiction.
  - now rewrite Hbodies.
  - now subst e'.
Qed.

Lemma fetchWeather_sameBody (lib : Lib) (world world' : World) (ctx : Trace.Context)
    (city : string) (st : state) :
  Getenv world "WEATHER_API_KEY" = Getenv world' "WEATHER_API_KEY" ->
  (forall req, sameBody (RoundTrip world req) (RoundTrip world' req)) ->
  ServiceB.fetchWeather lib world ctx city st = ServiceB.fetchWeather lib world' ctx city st.
Proof.
  intros Hkey Hbodies. rewrite !fetchWeather_run, <- Hkey. cbv zeta.
  destruct (String.eqb _ EmptyString); [reflexivity|].
  destruct (Http.NewRequestWithContext _ _ _ _) as [req|err]; [|reflexivity].
  specialize (Hbodies req). unfold sameBody in Hbodies.
  destruct (RoundTrip world req) as [resp|e], (RoundTrip world' req) as [resp'|e'];
    try contradiction.
  - now rewrite Hbodies.
  - now subst e'.
Qed.

(** X9. The orchestrator reads nothing of a provider's answer but its
    body: two worlds with the same credential whose providers send the
    same bodies (or fail alike), under whatever status codes and
    headers, get the same answer and leave the same calls and spans. *)
Theorem provider_status_ignored (lib : Lib) (world world' : World) (w : Http.ResponseWriter)
    (r : Http.ServerRequest) (st : state)
    (Hkey : Getenv world "WEATHER_API_KEY" = Getenv world' "WEATHER_API_KEY")
    (Hbodies : forall req, sameBody (RoundTrip world req) (RoundTrip world' req)) :
  ServiceB.GetWeatherHandler lib world w r st = ServiceB.GetWeatherHandler lib world' w r st.
Proof.
  rewrite !GetWeatherHandler_run.
  destruct (negb (ServiceB.isValidCEP (Http.URLParam r "cep"))); [reflexivity|].
  rewrite (fetchLocation_sameBody lib world world' _ _ _ Hbodies).
  destruct (ServiceB.fetchLocation lib world' _ _ _) as [[location|err] st1]; [|reflexivity].
  now rewrite (fetchWeather_sameBody lib world world' _ _ _ Hkey Hbodies).
Qed.

(** The providers answer 500 and 401, with other headers and the usual
    bodies: the answer is the one of the fair world. *)
Lemma provider_status_ignored_witness :
  ServiceB.GetWeatherHandler Examples.lib Examples.fairWorld Http.NewResponseWriter
    (Examples.toOrchestrator "01001000") Examples.start
  = ServiceB.GetWeatherHandler Examples.lib Cases.rudeWorld Http.NewResponseWriter
      (Examples.toOrchestrator "01001000") Examples.start.
Proof.
  apply (provider_status_ignored Examples.lib Examples.fairWorld Cases.rudeWorld).
  - reflexivity.
  - intros req. unfold Examples.fairWorld, Cases.rudeWorld, Examples.servers, sameBody.
    cbn [RoundTrip Examples.lookupText].
    destruct (String.eqb Examples.viaCepURL (Http.URL req)); [reflexivity|].
    destruct (String.eqb (Examples.weatherURL "k1") (Http.URL req)); reflexivity.
Defined.

(** ** Answers that lack the fields *)

Lemma storeStruct_selectsNone {S : Type} (codec : Json.Codec) (names : list string)
    (setField : string -> Json.value -> S -> option error -> S * option error)
    (gotype field : string) (v : Json.value) (old : S) (saved : option error) :
  selectsNone names v ->
  Json.storeStruct codec names setField gotype field v old saved = (old, saved).
Proof.
  intros [-> | (members & -> & Hnone)]; [reflexivity|].
  unfold Json.storeStruct.
  induction Hnone as [|member members Hmember _ IH]; [reflexivity|].
  cbn [fold_left]. now rewrite Hmember.
Qed.

(** X10. An answer of the address provider that decodes and holds neither
    a locality nor an error flag (the object [{}], say, or [null]) counts
    as found: [fetchLocation] returns a location whose locality is
    empty. *)
Theorem address_without_fields (lib : Lib) (world : World) (ctx : Trace.Context)
    (cep : string) (st : state) (req : Http.Request) (resp : Http.Response) (body : string)
    (v : Json.value)
    (Hreq : calls (snd (ServiceB.fetchLocation lib world ctx cep st)) = calls st ++ [req])
    (Hresp : RoundTrip world req = Ok resp)
    (Hbody : Http.ReadAll (Http.Body resp) = Ok body)
    (Hparse : Json.parse (json lib) body = inr v)
    (Hnone : selectsNone ["localidade"; "erro"] v) :
  fst (ServiceB.fetchLocation lib world ctx cep st)
  = Ok (ServiceB.mkViaCEPResponse EmptyString EmptyString).
Proof.
  rewrite fetchLocation_run in Hreq |- *. cbv zeta in Hreq |- *.
  destruct (Http.NewRequestWithContext _ _ _ _) as [req'|err]; cbn [fst snd calls] in Hreq |- *.
  - apply requests_issued in Hreq. subst req'. rewrite Hresp, Hbody.
    unfold ServiceB.unmarshalViaCEPResponse, Json.Unmarshal, ServiceB.storeViaCEPResponse.
    rewrite Hparse, (storeStruct_selectsNone _ _ _ _ _ _ _ _ Hnone). reflexivity.
  - now apply no_request_issued in Hreq.
Qed.

Lemma address_without_fields_witness :
  fst (ServiceB.fetchLocation Cases.lib Cases.blankWorld (Trace.mkContext 0) "01001000"
         Examples.start)
  = Ok (ServiceB.mkViaCEPResponse EmptyString EmptyString).
Proof.
  apply (address_without_fields Cases.lib Cases.blankWorld (Trace.mkContext 0) "01001000"
           Examples.start
           (Http.mkRequest "GET" Examples.viaCepURL (Trace.mkContext 1))
           (Http.mkResponse 200 Examples.jsonLines (Examples.whole Examples.emptyObjectText))
           Examples.emptyObjectText (Json.Object [])); try reflexivity.
  right. exists []. split; [reflexivity | constructor].
Defined.

(** X11. An answer of the weather provider that decodes and holds no
    member [current] (an error object, say, whatever its status code)
    counts as a temperature of zero: the orchestrator answers 200 with
    the temperatures 0, 32 and 273. *)
Theorem weather_without_temperature (lib : Lib) (world : World) (r : Http.ServerRequest)
    (st st1 : state) (location : ServiceB.ViaCEPResponse) (req : Http.Request)
    (resp : Http.Response) (body : string) (v : Json.value)
    (Hvalid : ServiceB.isValidCEP (Http.URLParam r "cep") = true)
    (Hlocation :
       ServiceB.fetchLocation lib world (Http.Context r) (Http.URLParam r "cep")
         (attributed r st) = (Ok location, st1))
    (Hreq :
       calls (snd (ServiceB.fetchWeather lib world (Http.Context r)
                     (ServiceB.Localidade location) st1))
       = calls st1 ++ [req])
    (Hresp : RoundTrip world req = Ok resp)
    (Hbody : Http.ReadAll (Http.Body resp) = Ok body)
    (Hparse : Json.parse (json lib) body = inr v)
    (Hnone : selectsNone ["current"] v) :
  successResponse
    (ServiceB.objectText (Json.quoteString (json lib) (ServiceB.Localidade location))
       (Json.formatFloat (json lib) 0%float) (Json.formatFloat (json lib) 32%float)
       (Json.formatFloat (json lib) 273%float))
    (fst (ServiceB.GetWeatherHandler lib world Http.NewResponseWriter r st)).
Proof.
  assert (Hweather :
            fst (ServiceB.fetchWeather lib world (Http.Context r)
                   (ServiceB.Localidade location) st1)
            = Ok (ServiceB.mkWeatherAPIResponse (ServiceB.mkCurrentWeather 0%float))).
  { rewrite fetchWeather_run in Hreq |- *. cbv zeta in Hreq |- *.
    destruct (String.eqb _ EmptyString); cbn [fst snd calls] in Hreq |- *;
      [now apply no_request_issued in Hreq|].
    destruct (Http.NewRequestWithContext _ _ _ _) as [req'|err];
      cbn [fst snd calls] in Hreq |- *; [|now apply no_request_issued in Hreq].
    apply requests_issued in Hreq. subst req'. rewrite Hresp, Hbody.
    unfold ServiceB.unmarshalWeatherAPIResponse, Json.Unmarshal,
      ServiceB.storeWeatherAPIResponse.
    rewrite Hparse, (storeStruct_selectsNone _ _ _ _ _ _ _ _ Hnone). reflexivity. }
  destruct (ServiceB.fetchWeather lib world (Http.Context r) (ServiceB.Localidade location) st1)
    as [weather st2] eqn:Hrun.
  cbn [fst] in Hweather. subst weather.
  rewrite (GetWeatherHandler_success lib world r st st1 st2 location _ _ Hvalid Hlocation Hrun
             (Marshal_finite lib
                (ServiceB.mkFinalResponse (ServiceB.Localidade location) 0%float
                   (0 * 1.8 + 32)%float (0 + 273)%float)
                eq_refl eq_refl eq_refl)).
  repeat split.
Qed.

(** The weather provider refuses the key with status 401 and an error
    object: São Paulo is reported at zero degrees. *)
Lemma weather_without_temperature_witness :
  successResponse
    ("{" +:+ Examples.quoted "city" +:+ ":" +:+ Examples.quoted "São Paulo" +:+ ","
     +:+ Examples.quoted "temp_C" +:+ ":0," +:+ Examples.quoted "temp_F" +:+ ":32,"
     +:+ Examples.quoted "temp_K" +:+ ":273}")
    (fst (ServiceB.GetWeatherHandler Cases.lib Cases.refusedWorld Http.NewResponseWriter
            (Examples.toOrchestrator "01001000") Examples.start)).
Proof.
  pose (r := Examples.toOrchestrator "01001000").
  pose (st1 := snd (ServiceB.fetchLocation Cases.lib Cases.refusedWorld (Http.Context r)
                      (Http.URLParam r "cep") (attributed r Examples.start))).
  assert (Hvalid : ServiceB.isValidCEP (Http.URLParam r "cep") = true)
    by (vm_compute; reflexivity).
  assert (Hlocation :
            ServiceB.fetchLocation Cases.lib Cases.refusedWorld (Http.Context r)
              (Http.URLParam r "cep") (attributed r Examples.start)
            = (Ok (ServiceB.mkViaCEPResponse "São Paulo" EmptyString), st1))
    by (vm_compute; reflexivity).
  apply (weather_without_temperature Cases.lib Cases.refusedWorld r Examples.start st1
           (ServiceB.mkViaCEPResponse "São Paulo" EmptyString)
           (Http.mkRequest "GET" (Examples.weatherURL "k1") (Trace.mkContext 2))
           (Http.mkResponse 401 Examples.jsonLines (Examples.whole Cases.errorText))
           Cases.errorText
           (Json.Object [("error", Json.Object [("code", Json.Number "2006")])])
           Hvalid Hlocation); try (vm_compute; reflexivity).
  right. eexists. split; [reflexivity|]. repeat constructor.
Defined.

(** ** A payload that does not encode *)

(** X12. When both adapters have answered and the payload does not
    encode, status 200 and the JSON header block are committed already:
    the error text goes out as the body under status 200, and the
    attempt to answer 500 is one status too many. *)
Theorem encoding_failure_answer (lib : Lib) (world : World) (r : Http.ServerRequest)
    (st : state) (e : error)
    (Hvalid : ServiceB.isValidCEP (Http.URLParam r "cep") = true)
    (Hfail : payloadEncoding lib world r st (Err e)) :
  let answer := fst (ServiceB.GetWeatherHandler lib world Http.NewResponseWriter r st) in
  Http.committed answer = Some (Http.StatusOK, jsonHeader)
  /\ Http.written answer = Error e +:+ newline
  /\ Http.superfluous answer = 1.
Proof.
  destruct Hfail as (location & st1 & weather & st2 & Hlocation & Hweather & Hpayload).
  cbv zeta. rewrite GetWeatherHandler_run, Hvalid, Hlocation, Hweather. cbn [negb]. cbv zeta.
  unfold ServiceB.Encode. rewrite Hpayload. repeat split.
Qed.

Lemma encoding_failure_answer_witness :
  let answer :=
    fst (ServiceB.GetWeatherHandler Examples.lib Examples.scorchingWorld
           Http.NewResponseWriter (Examples.toOrchestrator "01001000") Examples.start) in
  Http.committed answer = Some (Http.StatusOK, jsonHeader)
  /\ Http.written answer = "json: unsupported value: +Inf" +:+ newline
  /\ Http.superfluous answer = 1.
Proof.
  apply (encoding_failure_answer Examples.lib Examples.scorchingWorld
           (Examples.toOrchestrator "01001000") Examples.start
           (mkError "json: unsupported value: +Inf")).
  - vm_compute. reflexivity.
  - pose (r := Examples.toOrchestrator "01001000").
    exists (ServiceB.mkViaCEPResponse "São Paulo" EmptyString),
      (snd (ServiceB.fetchLocation Examples.lib Examples.scorchingWorld (Http.Context r)
              (Http.URLParam r "cep") (attributed r Examples.start))),
      (ServiceB.mkWeatherAPIResponse (ServiceB.mkCurrentWeather 1e308%float)),
      (snd (ServiceB.fetchWeather Examples.lib Examples.scorchingWorld (Http.Context r)
              "São Paulo"
              (snd (ServiceB.fetchLocation Examples.lib Examples.scorchingWorld
                      (Http.Context r) (Http.URLParam r "cep")
                      (attributed r Examples.start))))).
    split; [|split]; vm_compute; reflexivity.
Defined.

(** ** The escaping of the locality *)

Lemma hexDigit_queryByte (c : ascii) :
  queryByte (hexDigit (nat_of_ascii c / 16)) = true
  /\ queryByte (hexDigit (nat_of_ascii c mod 16)) = true.
Proof. destruct c as [[] [] [] [] [] [] [] []]; split; reflexivity. Qed.

(** X13. The escaped locality that goes into the weather provider's URL
    consists of letters, digits, [-], [_], [.], [~], [+] and [%] only: no
    byte of the locality can end the query parameter or open another. *)
Theorem QueryEscape_bytes (s : string) :
  forallb queryByte (list_ascii_of_string (QueryEscape s)) = true.
Proof.
  induction s as [|c s IH]; [reflexivity|].
  cbn [QueryEscape]. destruct (unreserved c) eqn:Hkept.
  - cbn [list_ascii_of_string forallb]. unfold queryByte at 1. now rewrite Hkept, IH.
  - destruct (Ascii.eqb c " ").
    + cbn [list_ascii_of_string forallb]. now rewrite IH.
    + destruct (hexDigit_queryByte c) as [Hhigh Hlow].
      cbn [list_ascii_of_string forallb]. now rewrite Hhigh, Hlow, IH.
Qed.

Lemma queryUnescape_byte (c : ascii) (s : string) :
  queryUnescape (QueryEscape (String c s)) = String c (queryUnescape (QueryEscape s)).
Proof. destruct c as [[] [] [] [] [] [] [] []]; reflexivity. Qed.

(** X14. Escaping loses nothing: reading [+] as a space and [%XX] as the
    byte of that code gives the locality back, so two localities are
    escaped alike only when they are the same. *)
Theorem QueryEscape_faithful (s t : string) :
  queryUnescape (QueryEscape s) = s
  /\ (QueryEscape s = QueryEscape t -> s = t).
Proof.
  assert (Hback : forall u, queryUnescape (QueryEscape u) = u).
  { induction u as [|c u IH]; [reflexivity|]. now rewrite queryUnescape_byte, IH. }
  split; [apply Hback|].
  intros H. apply (f_equal queryUnescape) in H. now rewrite !Hback in H.
Qed.

(** ** The two [main] functions *)

(** X15. A server is started only after tracing is set up. When the
    orchestrator's [main] starts its server, the credential is set, and
    the log up to there is: the client for the collector of the
    environment (or [localhost:4317]), the always-sampling provider of
    [service-b] installed, the trace-context propagator installed, the
    banner; the server listens on [:8081] with the two routes. When it
    does not, [main] has exited with status 1 and no global is set. The
    same holds of the gateway's [main], without the credential, on
    [:8080]. *)
Theorem servers_start_after_set_up (host : Tracer.Host) (log : list Tracer.event) :
  (exists new,
      snd (ServiceBMain.main host log) = log ++ new
      /\ (existsb isListen new = true ->
          Tracer.env host "WEATHER_API_KEY" <> EmptyString
          /\ before isListen new
             = tracingSetUp "service-b" host
               ++ [Tracer.Println "Serviço B está a correr na porta 8081..."]
          /\ List.filter isListen new = [Tracer.ListenAndServe ":8081" ServiceBMain.routes])
      /\ (existsb isListen new = false ->
          fst (ServiceBMain.main host log) = Tracer.Exited 1
          /\ existsb isGlobal new = false))
  /\ (exists new,
        snd (ServiceAMain.main host log) = log ++ new
        /\ (existsb isListen new = true ->
            before isListen new
            = tracingSetUp "service-a" host
              ++ [Tracer.Println "Serviço A está a correr na porta 8080..."]
            /\ List.filter isListen new = [Tracer.ListenAndServe ":8080" ServiceAMain.routes])
        /\ (existsb isListen new = false ->
            fst (ServiceAMain.main host log) = Tracer.Exited 1
            /\ existsb isGlobal new = false)).
Proof.
  split.
  - main_cases;
      (split; cbn; intros H; try discriminate H; repeat split; try reflexivity;
       try (now apply String.eqb_neq)).
  - main_cases;
      (split; cbn; intros H; try discriminate H; repeat split; try reflexivity).
Qed.

(** X16. The provider is shut down when, and only when, [main] returns:
    once, after the server has stopped, and it is the provider that was
    installed. A [main] that exits through [log.Fatal], or whose server
    never stops, shuts nothing down. [main] returns exactly when the
    set-up has succeeded and the server has stopped. *)
Theorem provider_shut_down_on_return (host : Tracer.Host) (log : list Tracer.event) :
  (exists new,
      snd (ServiceBMain.main host log) = log ++ new
      /\ List.filter isShutdown new
         = match fst (ServiceBMain.main host log) with
           | Tracer.Returned => [Tracer.Shutdown (provider "service-b" host)]
           | _ => []
           end
      /\ existsb isShutdown (before isListen new) = false
      /\ (fst (ServiceBMain.main host log) = Tracer.Returned
          <-> existsb isListen new = true /\ Tracer.serveError host ":8081" <> None))
  /\ (exists new,
        snd (ServiceAMain.main host log) = log ++ new
        /\ List.filter isShutdown new
           = match fst (ServiceAMain.main host log) with
             | Tracer.Returned => [Tracer.Shutdown (provider "service-a" host)]
             | _ => []
             end
        /\ existsb isShutdown (before isListen new) = false
        /\ (fst (ServiceAMain.main host log) = Tracer.Returned
            <-> existsb isListen new = true /\ Tracer.serveError host ":8080" <> None)).
Proof.
  split; main_cases; cbn;
    (split; [reflexivity | split; [reflexivity|]]);
    (split;
     [ intros H; first [discriminate H | split; [reflexivity | discriminate]]
     | intros [H1 H2]; first [discriminate H1 | reflexivity | now contradict H2] ]).
Qed.
